(** * dagster-dask: the Dask executor

    A shallow embedding of
    [python_modules/libraries/dagster-dask/dagster_dask/executor.py]:
    the resource-requirement extractor, the executor's constructor, the
    cluster keyword-argument builder [build_dict] and the generator
    [DaskExecutor.execute] (precondition checks, cluster dispatch, the
    dependency-ordered submission loop and the completion-order drain).

    Python dictionaries are finite maps ([gmap]) keyed by strings, Python
    exceptions are values of [exn] carried by a small error monad, and the
    effects of [execute] on the outside world (cluster construction, the
    client context manager, task submission, waiting on a future, yielding
    an event to the caller) are recorded in a trace. *)

From stdpp Require Import gmap strings list fin_maps.
From Stdlib Require Import ZArith.

Set Warnings "-register-all".

(** ** Python values *)

(** The values that configuration mappings, run configuration and decoded
    JSON payloads are made of. *)
Inductive pyval :=
| PyNone
| PyBool (b : bool)
| PyInt (n : Z)
| PyStr (s : string)
| PyList (l : list pyval)
| PyDict (d : gmap string pyval).

(** The exceptions the module can raise. [CheckError] stands for
    [dagster.check.CheckError] and its subclasses (the failures of
    [check.invariant], [check.param_invariant], [check.inst] and the
    [check.*_param] helpers). [RemoteError] is whatever [future.result()]
    re-raises from the worker. *)
Inductive exn :=
| CheckError (msg : string)
| ValueError (msg : string)
| KeyError (key : string)
| AttributeError (msg : string)
| JSONDecodeError (doc : string)
| RemoteError (msg : string).

Inductive result (A : Type) :=
| Ok (a : A)
| Raise (e : exn).
Arguments Ok {A} a.
Arguments Raise {A} e.

(** The error monad of the pure helpers. *)
Definition result_bind {A B} (r : result A) (k : A → result B) : result B :=
  match r with
  | Ok a => k a
  | Raise e => Raise e
  end.

(** ** Constants of the module *)

Definition DASK_RESOURCE_REQUIREMENTS_KEY : string :=
  "dagster-dask/resource_requirements".

Definition kind_local : string := "local".
Definition kind_yarn : string := "yarn".
Definition kind_ssh : string := "ssh".
Definition kind_pbs : string := "pbs".
Definition kind_kube : string := "kube".

Definition key_name : string := "name".
Definition key_address : string := "address".
Definition key_threads_per_worker : string := "threads_per_worker".
Definition key_storage : string := "storage".
Definition key_execution : string := "execution".
Definition key_in_process : string := "in_process".

(** ** Helpers of [dagster.check] *)

(** Modelled from the spec: [check.opt_str_param] belongs to dagster's
    [check] module, which is not among the sources. The call site passes
    [default='local'] and the executor's docstring promises a local cluster
    when no executor-specific configuration is given: [None] becomes the
    default, a string is returned as it is, anything else is a check
    failure. *)
Definition opt_str_param (obj : pyval) (param_name : string)
    (default : string) : result string :=
  match obj with
  | PyNone => Ok default
  | PyStr s => Ok s
  | _ => Raise (CheckError param_name)
  end.

(** Modelled from the spec: [check.opt_dict_param] belongs to dagster's
    [check] module, which is not among the sources. [None] becomes the empty
    mapping, a mapping is returned as it is, anything else is a check
    failure. *)
Definition opt_dict_param (obj : pyval) (param_name : string)
    : result (gmap string pyval) :=
  match obj with
  | PyNone => Ok ∅
  | PyDict d => Ok d
  | _ => Raise (CheckError param_name)
  end.

(** ** The executor object *)

Record DaskExecutor := {
  cluster_type : string;
  cluster_configuration : gmap string pyval;
}.

(** [DaskExecutor.__init__]. *)
Definition DaskExecutor_init (cluster_type cluster_configuration : pyval)
    : result DaskExecutor :=
  result_bind (opt_str_param cluster_type "cluster_type" kind_local)
    (λ ct,
       result_bind
         (opt_dict_param cluster_configuration "cluster_configuration")
         (λ cc, Ok {| cluster_type := ct; cluster_configuration := cc |})).

(** Truth value of a dictionary: empty is false. *)
Definition dict_truthy {A} (d : gmap string A) : bool :=
  bool_decide (d ≠ ∅).

(** [for k, v in src.items(): dst[k] = v]. *)
Definition dict_update_items {A} (src dst : gmap string A) : gmap string A :=
  map_fold (λ k v acc, <[k := v]> acc) dst src.

(** [DaskExecutor.build_dict]. *)
Definition build_dict (self : DaskExecutor) (pipeline_name : string)
    : gmap string pyval :=
  let dask_cfg : gmap string pyval :=
    if bool_decide (cluster_type self ∈ [kind_yarn; kind_kube; kind_pbs])
    then {[ key_name := PyStr pipeline_name ]}
    else ∅ in
  let dask_cfg :=
    if dict_truthy (cluster_configuration self)
    then dict_update_items (cluster_configuration self) dask_cfg
    else dask_cfg in
  let dask_cfg :=
    if bool_decide (cluster_type self = kind_local)
       && negb (bool_decide (is_Some (dask_cfg !! key_address)))
    then <[ key_threads_per_worker := PyInt 1 ]> dask_cfg
    else dask_cfg in
  dask_cfg.

(** ** The resource-requirement extractor *)

Section Extractor.

(** [seven.json.loads] is the interpreter's JSON decoder; [None] stands
    for a payload it rejects. *)
Variable json_loads : string → option pyval.

(** [get_dask_resource_requirements]. [tags] is a [frozentags], a mapping
    from strings to strings, so [tags.get] is [None] exactly when the key
    is absent. *)
Definition get_dask_resource_requirements (tags : gmap string string)
    : result pyval :=
  let req_str := tags !! DASK_RESOURCE_REQUIREMENTS_KEY in
  match req_str with
  | Some req_str =>
      match json_loads req_str with
      | Some v => Ok v
      | None => Raise (JSONDecodeError req_str)
      end
  | None => Ok (PyDict ∅)
  end.

End Extractor.

(** ** The execution plan *)

(** [StepInput.dependency_keys] is a set of step keys; the list holds its
    elements in the order [for key in step_input.dependency_keys] visits
    them, which is the only way [execute] reads it. *)
Record StepInput := {
  dependency_keys : list string;
}.

Record ExecutionStep := {
  key : string;
  step_inputs : list StepInput;
  tags : gmap string string;
}.

(** [ExecutionPlan.execution_step_levels()]: the plan's levels, in order. *)
Definition step_levels_t := list (list ExecutionStep).

(** All dependency keys of a step, in the order the submission loop visits
    them. *)
Definition step_dependency_keys (step : ExecutionStep) : list string :=
  concat (dependency_keys <$> step_inputs step).

(** ** Events, futures and the effects of [execute] *)

Record DagsterEvent := {
  event_type_value : string;
  step_key : string;
}.

(** What a future may resolve to, element by element: a [DagsterEvent], or
    some other object, which [check.inst] refuses. *)
Inductive pyobj :=
| ObjEvent (ev : DagsterEvent)
| ObjOther (v : pyval).

(** A [dask.distributed.Future]: the task key it was submitted under and
    its rank among the client's submissions. *)
Record Future := {
  fut_key : string;
  fut_id : nat;
}.

#[global] Instance Future_eq_dec : EqDecision Future.
Proof. solve_decision. Defined.

Inductive cluster_class :=
| LocalCluster | YarnCluster | SSHCluster | PBSCluster | KubeCluster.

(** The arguments of one [client.submit(query_on_dask_worker, ...)]. *)
Record submit_call := {
  sc_workspace : string;
  sc_variables : pyval;
  sc_dependencies : list Future;
  sc_instance_ref : string;
  sc_key : string;
  sc_resources : pyval;
}.

Inductive effect :=
| EvCluster (cls : cluster_class) (kwargs : gmap string pyval)
| EvClientEnter
| EvClientExit
| EvSubmit (call : submit_call)
| EvResult (f : Future)
| EvYield (ev : DagsterEvent).

(** ** The monad of [execute]: a trace of effects and an outcome.

    A computation extends the trace it is given; an exception keeps the
    trace written so far. *)
Definition M (A : Type) : Type := list effect → list effect * result A.

Definition ret {A} (a : A) : M A := λ t, (t, Ok a).
Definition raise {A} (e : exn) : M A := λ t, (t, Raise e).
Definition emit (ev : effect) : M unit := λ t, (t ++ [ev], Ok tt).
Definition lift {A} (r : result A) : M A := λ t, (t, r).

Definition bind {A B} (m : M A) (k : A → M B) : M B :=
  λ t, match m t with
       | (t', Ok a) => k a t'
       | (t', Raise e) => (t', Raise e)
       end.

#[global] Instance M_ret : MRet M := @ret.
#[global] Instance M_bind : MBind M := λ A B k m, bind m k.

(** [for x in xs: body], threading the loop's variables [s]. *)
Fixpoint for_in {A S} (xs : list A) (body : A → S → M S) (s : S) : M S :=
  match xs with
  | [] => ret s
  | x :: xs => s' ← body x s; for_in xs body s'
  end.

(** [check.invariant(condition, desc)]; [check.param_invariant] fails the
    same way, with a message that also names the parameter. *)
Definition check_invariant (condition : bool) (desc : string) : M unit :=
  if condition then ret tt else raise (CheckError desc).

(** [check.inst(obj, DagsterEvent)]. *)
Definition check_inst_DagsterEvent (obj : pyobj) : M DagsterEvent :=
  match obj with
  | ObjEvent ev => ret ev
  | ObjOther _ => raise (CheckError "Object is not a DagsterEvent")
  end.

(** [d[key]] on a dictionary. *)
Definition getitem {A} (d : gmap string A) (k : string) : M A :=
  match d !! k with
  | Some v => ret v
  | None => raise (KeyError k)
  end.

(** [d.get(key)]: [None] when the key is absent. *)
Definition dict_get (d : gmap string pyval) (k : string) : pyval :=
  default PyNone (d !! k).

(** [obj.keys()]: only a mapping has the method. *)
Definition py_keys (obj : pyval) : M (list string) :=
  match obj with
  | PyDict d => ret (fst <$> map_to_list d)
  | PyNone =>
      raise (AttributeError "'NoneType' object has no attribute 'keys'")
  | _ => raise (AttributeError "object has no attribute 'keys'")
  end.

(** Number of tasks the client has been given so far. *)
Definition is_submit (ev : effect) : bool :=
  match ev with EvSubmit _ => true | _ => false end.

Definition n_submitted (t : list effect) : nat :=
  length (filter (λ ev, is_submit ev) t).

(** ** The pipeline context

    The parts of [SystemPipelineExecutionContext] that [execute] reads. *)
Record pipeline_context := {
  executor_is_DaskExecutor : bool;
  run_config : gmap string pyval;
  instance_is_persistent : bool;
  system_storage_def_is_persistent : bool;
  pipeline_name : string;
  repository_name : string;
  repository_pointer : string;
  mode_name : string;
  run_id : string;
  instance_ref : string;
}.

(** The variables of the [submitted] loop: the completion worklist and the
    map from step keys to futures. *)
Record submitted := {
  execution_futures : list Future;
  execution_futures_dict : gmap string Future;
}.

Definition no_submissions : submitted :=
  {| execution_futures := []; execution_futures_dict := ∅ |}.

(** ['%s.%s' % (pipeline_name, step.key)]. *)
Definition dask_task_name (pipeline_name step_key : string) : string :=
  pipeline_name +:+ "." +:+ step_key.

(** The [variables] dictionary built for one step. *)
Definition step_variables (ctx : pipeline_context) (step : ExecutionStep)
    : pyval :=
  let run_config : gmap string pyval :=
    <[ key_execution := PyDict {[ key_in_process := PyDict ∅ ]} ]>
      (run_config ctx) in
  let selector : gmap string pyval :=
    <[ "pipelineName" := PyStr (pipeline_name ctx) ]>
    (<[ "repositoryName" := PyStr (repository_name ctx) ]>
    (<[ "repositoryLocationName" := PyStr "<<in_process>>" ]> ∅)) in
  let params : gmap string pyval :=
    <[ "selector" := PyDict selector ]>
    (<[ "runConfigData" := PyDict run_config ]>
    (<[ "mode" := PyStr (mode_name ctx) ]>
    (<[ "executionMetadata" := PyDict {[ "runId" := PyStr (run_id ctx) ]} ]>
    (<[ "stepKeys" := PyList [PyStr (key step)] ]> ∅)))) in
  PyDict {[ "executionParams" := PyDict params ]}.

Section Execute.

Variable json_loads : string → option pyval.

(** The cluster's side of the run: the order in which
    [dask.distributed.as_completed] hands the futures back, and what each
    [future.result()] returns or raises. *)
Variable as_completed : list Future → list Future.
Variable future_result : Future → result (list pyobj).

(** [client.submit(query_on_dask_worker, ...)]: the call is recorded and a
    new future comes back at once. *)
Definition client_submit (call : submit_call) : M Future :=
  λ t, (t ++ [EvSubmit call],
        Ok {| fut_key := sc_key call; fut_id := n_submitted t |}).

(** [future.result()]. *)
Definition call_result (f : Future) : M (list pyobj) :=
  λ t, (t ++ [EvResult f], future_result f).

(** The two inner loops that collect a step's dependency futures. *)
Definition collect_dependencies (futures_dict : gmap string Future)
    (step : ExecutionStep) : M (list Future) :=
  for_in (step_inputs step)
    (λ step_input dependencies,
       for_in (dependency_keys step_input)
         (λ key dependencies,
            f ← getitem futures_dict key;
            mret (dependencies ++ [f]))
         dependencies)
    [].

(** The body of [for step in step_level]. *)
Definition submit_step (ctx : pipeline_context) (step : ExecutionStep)
    (s : submitted) : M submitted :=
  dependencies ← collect_dependencies (execution_futures_dict s) step;
  let variables := step_variables ctx step in
  let dask_task_name := dask_task_name (pipeline_name ctx) (key step) in
  let workspace := repository_pointer ctx in
  resources ← lift (get_dask_resource_requirements json_loads (tags step));
  future ← client_submit
    {| sc_workspace := workspace;
       sc_variables := variables;
       sc_dependencies := dependencies;
       sc_instance_ref := instance_ref ctx;
       sc_key := dask_task_name;
       sc_resources := resources |};
  mret {| execution_futures := execution_futures s ++ [future];
          execution_futures_dict :=
            <[ key step := future ]> (execution_futures_dict s) |}.

(** [for step in step_level]. *)
Definition submit_level (ctx : pipeline_context)
    (step_level : list ExecutionStep) (s : submitted) : M submitted :=
  for_in step_level (submit_step ctx) s.

(** [for step_level in step_levels]. *)
Definition submit_levels (ctx : pipeline_context)
    (step_levels : step_levels_t) (s : submitted) : M submitted :=
  for_in step_levels (submit_level ctx) s.

(** The drain: [for future in as_completed(execution_futures)], each
    event checked and yielded. *)
Definition drain_futures (futures : list Future) : M unit :=
  for_in futures
    (λ future _,
       step_events ← call_result future;
       for_in step_events
         (λ step_event _,
            ev ← check_inst_DagsterEvent step_event;
            emit (EvYield ev))
         tt)
    tt.

(** [with dask.distributed.Client(cluster) as client: body]: the client
    is entered, and left again however the body ends. *)
Definition with_client {A} (body : M A) : M A :=
  λ t, let '(t', r) := body (t ++ [EvClientEnter]) in
       (t' ++ [EvClientExit], r).

(** The [if]/[elif] chain on [cluster_type]. *)
Definition new_cluster (self : DaskExecutor) (pipeline_name : string)
    : M cluster_class :=
  let cluster_type := cluster_type self in
  if bool_decide (cluster_type = kind_local) then
    emit (EvCluster LocalCluster (build_dict self pipeline_name));;
    mret LocalCluster
  else if bool_decide (cluster_type = kind_yarn) then
    emit (EvCluster YarnCluster (build_dict self pipeline_name));;
    mret YarnCluster
  else if bool_decide (cluster_type = kind_ssh) then
    emit (EvCluster SSHCluster (build_dict self pipeline_name));;
    mret SSHCluster
  else if bool_decide (cluster_type = kind_pbs) then
    emit (EvCluster PBSCluster (build_dict self pipeline_name));;
    mret PBSCluster
  else if bool_decide (cluster_type = kind_kube) then
    emit (EvCluster KubeCluster (build_dict self pipeline_name));;
    mret KubeCluster
  else
    raise (ValueError
      ("Must be providing one of the following ('local', 'yarn', 'ssh', 'pbs', 'kube') not "
         +:+ cluster_type)).

(** The three storage checks at the top of [execute]. *)
Definition check_storage (ctx : pipeline_context) : M unit :=
  let storage := dict_get (run_config ctx) key_storage in
  keys ← py_keys storage;
  check_invariant (bool_decide (keys ≠ []))
    "Must specify storage to use Dask execution";;
  check_invariant (instance_is_persistent ctx)
    "Dask execution requires a persistent DagsterInstance";;
  check_invariant (system_storage_def_is_persistent ctx)
    "Cannot use in-memory storage with Dask, use filesystem, S3, or GCS".

(** [DaskExecutor.execute], run to the end of the generator. *)
Definition execute (self : DaskExecutor) (ctx : pipeline_context)
    (step_levels : step_levels_t) : M unit :=
  check_invariant (executor_is_DaskExecutor ctx)
    "Expected executor to be DaskExecutor";;
  check_storage ctx;;
  cluster ← new_cluster self (pipeline_name ctx);
  with_client
    (s ← submit_levels ctx step_levels no_submissions;
     drain_futures (as_completed (execution_futures s))).

(** A run of [execute] from the empty trace. *)
Definition run_execute (self : DaskExecutor) (ctx : pipeline_context)
    (step_levels : step_levels_t) : list effect * result unit :=
  execute self ctx step_levels [].

End Execute.

(** ** The executor factory *)

(** [obj.items()]: only a mapping has the method. *)
Definition py_items (obj : pyval) : result (list (string * pyval)) :=
  match obj with
  | PyDict d => Ok (map_to_list d)
  | PyNone =>
      Raise (AttributeError "'NoneType' object has no attribute 'items'")
  | _ => Raise (AttributeError "object has no attribute 'items'")
  end.

(** The part of [InitExecutorContext] that the factory reads itself; the
    rest of the object is only looked at by
    [check_cross_process_constraints]. *)
Record InitExecutorContext := {
  executor_config : gmap string pyval;
  init_rest : pyval;
}.

Section Factory.

(** [dagster.core.definitions.executor.check_cross_process_constraints]
    belongs to dagster's core: it returns nothing or raises. *)
Variable check_cross_process_constraints : InitExecutorContext → result unit.

(** [dask_executor]. The assignment
    [((cluster_type, cluster_configuration),) = ... .items()] unpacks a
    sequence of exactly one pair. *)
Definition dask_executor (init_context : InitExecutorContext)
    : result DaskExecutor :=
  result_bind (check_cross_process_constraints init_context) (λ _,
  result_bind
    (match executor_config init_context !! "cluster" with
     | Some cluster => Ok cluster
     | None => Raise (KeyError "cluster")
     end) (λ cluster,
  result_bind (py_items cluster) (λ items,
  match items with
  | [(cluster_type, cluster_configuration)] =>
      DaskExecutor_init (PyStr cluster_type) cluster_configuration
  | [] => Raise (ValueError "not enough values to unpack (expected 1, got 0)")
  | _ :: _ :: _ => Raise (ValueError "too many values to unpack (expected 1)")
  end))).

End Factory.

(** ** [execute] when a constructor raises

    [execute] above takes the two constructor calls of lines 144 to 170,
    the cluster's and the client's, to return. Both are calls into dask
    that can raise; this is the same function with their outcomes left to
    the environment. *)

Section ExecuteConstructors.

Variable json_loads : string → option pyval.
Variable as_completed : list Future → list Future.
Variable future_result : Future → result (list pyobj).

(** The branch's import of the cluster class followed by the call of its
    constructor on the keyword arguments: the cluster is built, or the
    call raises. *)
Variable cluster_constructor :
  cluster_class → gmap string pyval → result unit.

(** [dask.distributed.Client(cluster)] and the entry of its context: the
    session is open, or the call raises. *)
Variable client_constructor : cluster_class → result unit.

(** One branch of the chain: [cluster] is the constructor's result. *)
Definition construct_cluster (cls : cluster_class)
    (kwargs : gmap string pyval) : M cluster_class :=
  match cluster_constructor cls kwargs with
  | Ok _ => emit (EvCluster cls kwargs);; mret cls
  | Raise e => raise e
  end.

(** The [if]/[elif] chain on [cluster_type]. *)
Definition new_cluster_env (self : DaskExecutor) (pipeline_name : string)
    : M cluster_class :=
  let cluster_type := cluster_type self in
  if bool_decide (cluster_type = kind_local) then
    construct_cluster LocalCluster (build_dict self pipeline_name)
  else if bool_decide (cluster_type = kind_yarn) then
    construct_cluster YarnCluster (build_dict self pipeline_name)
  else if bool_decide (cluster_type = kind_ssh) then
    construct_cluster SSHCluster (build_dict self pipeline_name)
  else if bool_decide (cluster_type = kind_pbs) then
    construct_cluster PBSCluster (build_dict self pipeline_name)
  else if bool_decide (cluster_type = kind_kube) then
    construct_cluster KubeCluster (build_dict self pipeline_name)
  else
    raise (ValueError
      ("Must be providing one of the following ('local', 'yarn', 'ssh', 'pbs', 'kube') not "
         +:+ cluster_type)).

(** [with dask.distributed.Client(cluster) as client: body]: when the
    context expression raises, neither the body nor the exit runs. *)
Definition with_client_env {A} (cluster : cluster_class) (body : M A)
    : M A :=
  match client_constructor cluster with
  | Ok _ => with_client body
  | Raise e => raise e
  end.

(** [DaskExecutor.execute], run to the end of the generator. *)
Definition execute_env (self : DaskExecutor) (ctx : pipeline_context)
    (step_levels : step_levels_t) : M unit :=
  check_invariant (executor_is_DaskExecutor ctx)
    "Expected executor to be DaskExecutor";;
  check_storage ctx;;
  cluster ← new_cluster_env self (pipeline_name ctx);
  with_client_env cluster
    (s ← submit_levels json_loads ctx step_levels no_submissions;
     drain_futures future_result (as_completed (execution_futures s))).


End ExecuteConstructors.

(** * dagster-ftp: the FTP resource

    [dagster_ftp/resources.py]: the byte accumulator and
    [FTPResource.download], over a connected client. *)

Module Ftp.

(** The exceptions of a download: the [RuntimeError] the resource raises
    itself, and whatever [ftplib] raises from the transfer. *)
Inductive error :=
| RuntimeError (msg : string)
| FtplibError (reply : string).

Inductive outcome (A : Type) :=
| Returned (a : A)
| Raised (e : error).
Arguments Returned {A} a.
Arguments Raised {A} e.

(** A [BinaryIO] opened for writing, as the bytes written to it so far;
    [write] appends the data and returns the number of bytes written. *)
Definition BinaryIO := list Byte.byte.

Definition write (stream : BinaryIO) (data : list Byte.byte)
    : BinaryIO * nat :=
  (stream ++ data, length data).

(** [_ByteAccumulator]. *)
Record ByteAccumulator := {
  dest : BinaryIO;
  nb_written_bytes : nat;
}.

(** [_ByteAccumulator.write_and_count]. *)
Definition write_and_count (acc : ByteAccumulator) (data : list Byte.byte)
    : ByteAccumulator :=
  let '(stream, n) := write (dest acc) data in
  {| dest := stream; nb_written_bytes := nb_written_bytes acc + n |}.

Section Client.

(** The server's side of [retrbinary]: for a command, the blocks of data
    it sends and then its final reply, or the exception [ftplib] makes of
    it. *)
Variable server : string → list (list Byte.byte) * outcome string.

(** [FTP.retrbinary(cmd, callback)]: the callback is called on each block
    as it arrives, then the reply is returned or raised. *)
Definition retrbinary (cmd : string)
    (callback : ByteAccumulator → list Byte.byte → ByteAccumulator)
    (acc : ByteAccumulator) : ByteAccumulator * outcome string :=
  let '(blocks, reply) := server cmd in
  (foldl callback acc blocks, reply).

(** [FTPResource.download]: the destination after the call, and what the
    call returns or raises. *)
Definition download (source : string) (destination : BinaryIO)
    : BinaryIO * outcome nat :=
  let acc := {| dest := destination; nb_written_bytes := 0 |} in
  let '(acc, reply) :=
    retrbinary ("RETR " +:+ source) write_and_count acc in
  match reply with
  | Raised e => (dest acc, Raised e)
  | Returned return_code =>
      if negb (String.prefix "226 " return_code)
      then (dest acc,
            Raised (RuntimeError
                      ("Binary transfer of " +:+ source
                         +:+ " failed. Return code: " +:+ return_code)))
      else (dest acc, Returned (nb_written_bytes acc))
  end.

End Client.

End Ftp.

(** * Vocabulary of the statements

    The predicates the properties below are stated with, and the sample
    executors, contexts, plans and clusters they are exercised on. *)

(** ** Configuration merging *)

(** The defaults computed before the user's options are merged in. *)
Definition base_defaults (self : DaskExecutor) (pipeline_name : string)
    : gmap string pyval :=
  if bool_decide (cluster_type self ∈ [kind_yarn; kind_kube; kind_pbs])
  then {[ key_name := PyStr pipeline_name ]}
  else ∅.

(** The options after the merge and before the local-cluster rule. *)
Definition merged_options (self : DaskExecutor) (pipeline_name : string)
    : gmap string pyval :=
  cluster_configuration self ∪ base_defaults self pipeline_name.

(** The local-cluster rule applies: local kind, no address among the merged
    options. *)
Definition forces_single_thread (self : DaskExecutor) : bool :=
  bool_decide (cluster_type self = kind_local)
  && negb (bool_decide (is_Some (cluster_configuration self !! key_address))).

(** Example executors used to exercise the statements below. *)
Definition local_four_threads : DaskExecutor :=
  {| cluster_type := kind_local;
     cluster_configuration := {[ key_threads_per_worker := PyInt 4 ]} |}.

Definition local_with_address : DaskExecutor :=
  {| cluster_type := kind_local;
     cluster_configuration :=
       <[ key_address := PyStr "127.0.0.1:8786" ]>
         {[ key_threads_per_worker := PyInt 4 ]} |}.

Definition yarn_named : DaskExecutor :=
  {| cluster_type := kind_yarn;
     cluster_configuration := {[ key_name := PyStr "mine" ]} |}.

(** A stand-in decoder for the examples: it knows the empty object and the
    number one, and rejects everything else. *)
Definition sample_json_loads (s : string) : option pyval :=
  if bool_decide (s = "{}") then Some (PyDict ∅)
  else if bool_decide (s = "1") then Some (PyInt 1)
  else None.

(** ** Traces *)

(** A computation only ever extends the trace, and only with effects that
    satisfy [P]. *)
Definition emits {A} (P : effect → Prop) (m : M A) : Prop :=
  ∀ t, ∃ t', (m t).1 = t ++ t' ∧ Forall P t'.

(** ** Plans and the submission loop *)

(** Modelled from the spec: the plan's invariants are established by
    [ExecutionPlan], which is not among the sources. A plan is leveled when
    every dependency key of a step names a step of a strictly earlier
    level; [earlier] holds the keys of the levels already passed. *)
Fixpoint levels_ordered (earlier : list string) (levels : step_levels_t)
    : bool :=
  match levels with
  | [] => true
  | level :: levels =>
      forallb
        (λ step, forallb (λ k, bool_decide (k ∈ earlier))
                         (step_dependency_keys step))
        level
      && levels_ordered (earlier ++ (key <$> level)) levels
  end.

(** The keys of all steps of a plan, level after level. *)
Definition plan_keys (levels : step_levels_t) : list string :=
  key <$> concat levels.

(** Modelled from the spec: a valid plan is leveled and its step keys are
    unique. *)
Definition valid_plan (levels : step_levels_t) : bool :=
  levels_ordered [] levels && bool_decide (NoDup (plan_keys levels)).

(** The future the loop creates for [step] when [n] tasks were submitted
    before it. *)
Definition step_future (ctx : pipeline_context) (n : nat)
    (step : ExecutionStep) : Future :=
  {| fut_key := dask_task_name (pipeline_name ctx) (key step); fut_id := n |}.

(** The step's resource tag decodes. *)
Definition tags_decodable (json_loads : string → option pyval)
    (step : ExecutionStep) : Prop :=
  ∃ v, get_dask_resource_requirements json_loads (tags step) = Ok v.

(** What holds between the steps already submitted ([done], in
    submission order), the trace and the loop's variables; [n0] tasks
    had been submitted before the loop began. *)
Record submitted_inv (ctx : pipeline_context) (n0 : nat)
    (done : list ExecutionStep) (t : list effect) (s : submitted) : Prop := {
  inv_count : n_submitted t = n0 + length done;
  inv_futures :
    execution_futures s
    = imap (λ i step, step_future ctx (n0 + i) step) done;
  inv_dict : ∀ k f,
    execution_futures_dict s !! k = Some f
    ↔ ∃ i step, done !! i = Some step ∧ key step = k
                ∧ f = step_future ctx (n0 + i) step;
}.

(** Every dependency key of a step names a step submitted before it;
    [seen] holds the keys submitted so far. *)
Fixpoint deps_before (seen : list string) (steps : list ExecutionStep)
    : Prop :=
  match steps with
  | [] => True
  | step :: steps =>
      (∀ k, k ∈ step_dependency_keys step → k ∈ seen)
      ∧ deps_before (seen ++ [key step]) steps
  end.

(** The plan of the end-to-end scenario: [A] and [B] in the first level,
    [C] in the second, depending on both. *)
Definition step_A : ExecutionStep :=
  {| key := "A"; step_inputs := []; tags := ∅ |}.
Definition step_B : ExecutionStep :=
  {| key := "B"; step_inputs := [];
     tags := {[ DASK_RESOURCE_REQUIREMENTS_KEY := "{}" ]} |}.
Definition step_C : ExecutionStep :=
  {| key := "C";
     step_inputs := [ {| dependency_keys := ["A"] |};
                      {| dependency_keys := ["B"] |} ];
     tags := ∅ |}.
Definition diamond_plan : step_levels_t := [[step_A; step_B]; [step_C]].

(** A context that passes every check of [execute]. *)
Definition sample_context : pipeline_context :=
  {| executor_is_DaskExecutor := true;
     run_config := {[ key_storage := PyDict {[ "filesystem" := PyDict ∅ ]} ]};
     instance_is_persistent := true;
     system_storage_def_is_persistent := true;
     pipeline_name := "pipe";
     repository_name := "repo";
     repository_pointer := "pointer";
     mode_name := "default";
     run_id := "run-1";
     instance_ref := "instance" |}.

(** The state of the nested loops just before [step]: the levels in
    [earlier] are done, and so are the steps in [before], which precede
    [step] in its own level. *)
Definition loop_reaches (json_loads : string → option pyval)
    (ctx : pipeline_context) (earlier : step_levels_t)
    (before : list ExecutionStep) : M submitted :=
  submit_levels json_loads ctx earlier no_submissions
    ≫= submit_level json_loads ctx before.

(** ** The checks, the dispatch and the client block *)

(** The storage section of the run configuration is a mapping that names a
    backend. *)
Definition storage_named (ctx : pipeline_context) : bool :=
  match run_config ctx !! key_storage with
  | Some (PyDict d) => bool_decide (d ≠ ∅)
  | _ => false
  end.

(** All the checks at the top of [execute] pass. *)
Definition preconditions_hold (ctx : pipeline_context) : bool :=
  executor_is_DaskExecutor ctx
  && storage_named ctx
  && instance_is_persistent ctx
  && system_storage_def_is_persistent ctx.

(** The cluster class the [if]/[elif] chain selects, if any. *)
Definition cluster_class_of (cluster_type : string) : option cluster_class :=
  if bool_decide (cluster_type = kind_local) then Some LocalCluster
  else if bool_decide (cluster_type = kind_yarn) then Some YarnCluster
  else if bool_decide (cluster_type = kind_ssh) then Some SSHCluster
  else if bool_decide (cluster_type = kind_pbs) then Some PBSCluster
  else if bool_decide (cluster_type = kind_kube) then Some KubeCluster
  else None.

(** The kinds the chain knows. *)
Definition known_kinds : list string :=
  [kind_local; kind_yarn; kind_ssh; kind_pbs; kind_kube].

(** The block under [with ... as client]. *)
Definition client_block (json_loads : string → option pyval)
    (as_completed : list Future → list Future)
    (future_result : Future → result (list pyobj))
    (ctx : pipeline_context) (step_levels : step_levels_t) : M unit :=
  s ← submit_levels json_loads ctx step_levels no_submissions;
  drain_futures future_result (as_completed (execution_futures s)).

(** The effects of the block under [with]: submissions, waits and yields. *)
Definition is_body_effect (ev : effect) : bool :=
  match ev with
  | EvSubmit _ | EvResult _ | EvYield _ => true
  | EvCluster _ _ | EvClientEnter | EvClientExit => false
  end.

(** A cluster for the examples: futures complete in the reverse of their
    submission order, and the second task submitted fails. *)
Definition sample_as_completed (futures : list Future) : list Future :=
  reverse futures.

Definition sample_future_result (f : Future) : result (list pyobj) :=
  if bool_decide (fut_id f = 1) then Raise (RemoteError "boom")
  else Ok [ObjEvent {| event_type_value := "STEP_SUCCESS";
                       step_key := fut_key f |}].

(** The executor built without executor-specific configuration, and one
    of an unknown kind. *)
Definition default_executor : DaskExecutor :=
  {| cluster_type := kind_local; cluster_configuration := ∅ |}.

Definition foo_executor : DaskExecutor :=
  {| cluster_type := "foo"; cluster_configuration := ∅ |}.

(** The sample context with a run configuration that has no storage
    section at all. *)
Definition context_without_storage : pipeline_context :=
  {| executor_is_DaskExecutor := true;
     run_config := ∅;
     instance_is_persistent := true;
     system_storage_def_is_persistent := true;
     pipeline_name := "pipe";
     repository_name := "repo";
     repository_pointer := "pointer";
     mode_name := "default";
     run_id := "run-1";
     instance_ref := "instance" |}.



(** ** Drains and submissions *)

(** The effects of the drain: waits and yields. *)
Definition is_drain_effect (ev : effect) : bool :=
  match ev with
  | EvResult _ | EvYield _ => true
  | _ => false
  end.

(** What the drain writes when every future in [futures] resolves to the
    events [events_of] gives for it. *)
Definition drain_trace (events_of : Future → list DagsterEvent)
    (futures : list Future) : list effect :=
  concat ((λ f, EvResult f :: (EvYield <$> events_of f)) <$> futures).

(** The events a trace yielded to the caller, in order. *)
Definition yielded (t : list effect) : list DagsterEvent :=
  omap (λ ev, match ev with EvYield e => Some e | _ => None end) t.

(** The call the loop makes for [step] once its dependency futures and its
    resource requirements are known. *)
Definition step_call (ctx : pipeline_context) (step : ExecutionStep)
    (dependencies : list Future) (resources : pyval) : submit_call :=
  {| sc_workspace := repository_pointer ctx;
     sc_variables := step_variables ctx step;
     sc_dependencies := dependencies;
     sc_instance_ref := instance_ref ctx;
     sc_key := dask_task_name (pipeline_name ctx) (key step);
     sc_resources := resources |}.

(** A step that depends on a key nobody submitted, and one whose resource
    tag does not decode. *)
Definition step_orphan : ExecutionStep :=
  {| key := "D";
     step_inputs := [ {| dependency_keys := ["A"; "missing"] |} ];
     tags := ∅ |}.
Definition step_bad_tag : ExecutionStep :=
  {| key := "E"; step_inputs := [];
     tags := {[ DASK_RESOURCE_REQUIREMENTS_KEY := "{GPU" ]} |}.

(** A cluster on which every task succeeds with one event, futures
    completing in the reverse of their submission order. *)
Definition success_event (f : Future) : DagsterEvent :=
  {| event_type_value := "STEP_SUCCESS"; step_key := fut_key f |}.
Definition all_succeed (f : Future) : result (list pyobj) :=
  Ok [ObjEvent (success_event f)].

(** A context for the factory, and a check that accepts it. *)
Definition sample_init_context : InitExecutorContext :=
  {| executor_config :=
       {[ "cluster" := PyDict {[ kind_local := PyDict ∅ ]} ]};
     init_rest := PyNone |}.
Definition constraints_met (_ : InitExecutorContext) : result unit := Ok tt.


(** * Properties *)

(** ** Configuration merging in [build_dict] *)

Lemma dict_update_items_union {A} (src dst : gmap string A) :
  dict_update_items src dst = src ∪ dst.
Proof.
  unfold dict_update_items.
  apply (map_fold_weak_ind (λ r m, r = m ∪ dst)).
  - by rewrite (left_id_L ∅ (∪)).
  - intros i x m r _ ->. by rewrite insert_union_l.
Qed.

Lemma merged_options_address self pipeline_name :
  merged_options self pipeline_name !! key_address
  = cluster_configuration self !! key_address.
Proof.
  unfold merged_options, base_defaults.
  destruct (cluster_configuration self !! key_address) as [v|] eqn:E.
  - by apply lookup_union_Some_l.
  - apply lookup_union_None. split; [done|].
    case_bool_decide; [|done]. by apply lookup_singleton_ne.
Qed.

Lemma build_dict_unfold self pipeline_name :
  build_dict self pipeline_name
  = if forces_single_thread self
    then <[ key_threads_per_worker := PyInt 1 ]>
           (merged_options self pipeline_name)
    else merged_options self pipeline_name.
Proof.
  assert (Hm : (if dict_truthy (cluster_configuration self)
                then dict_update_items (cluster_configuration self)
                       (base_defaults self pipeline_name)
                else base_defaults self pipeline_name)
               = merged_options self pipeline_name).
  { unfold dict_truthy, merged_options. case_bool_decide as Hne.
    - apply dict_update_items_union.
    - rewrite Hne. by rewrite (left_id_L ∅ (∪)). }
  unfold build_dict. fold (base_defaults self pipeline_name).
  cbv zeta. rewrite Hm. unfold forces_single_thread.
  by rewrite merged_options_address.
Qed.

(** C3, as stated, fails: on a local cluster without an address the user's
    [threads_per_worker = 4] is replaced by the computed value [1]. *)
Lemma build_dict_user_value_replaced :
  cluster_configuration local_four_threads !! key_threads_per_worker
    = Some (PyInt 4)
  ∧ build_dict local_four_threads "pipe" !! key_threads_per_worker
    = Some (PyInt 1)
  ∧ ¬ (∀ self pipeline_name k v,
         cluster_configuration self !! k = Some v →
         build_dict self pipeline_name !! k = Some v).
Proof.
  assert (H1 : cluster_configuration local_four_threads
                 !! key_threads_per_worker = Some (PyInt 4)) by reflexivity.
  assert (H2 : build_dict local_four_threads "pipe"
                 !! key_threads_per_worker = Some (PyInt 1)).
  { rewrite build_dict_unfold. vm_compute. reflexivity. }
  split; [exact H1|]. split; [exact H2|].
  intros H. specialize (H local_four_threads "pipe" _ _ H1).
  rewrite H2 in H. discriminate.
Qed.

(** C3, amended: every user-supplied key keeps the user's value in the
    mapping [build_dict] returns, whatever the cluster kind and whatever
    default was computed for it, except [threads_per_worker] when the
    local-cluster rule applies (local kind, no address), which is set to
    [1]. *)
Theorem build_dict_user_overrides self pipeline_name k v :
  cluster_configuration self !! k = Some v →
  build_dict self pipeline_name !! k
  = if forces_single_thread self && bool_decide (k = key_threads_per_worker)
    then Some (PyInt 1)
    else Some v.
Proof.
  intros Hk. rewrite build_dict_unfold.
  assert (Hm : merged_options self pipeline_name !! k = Some v)
    by by apply lookup_union_Some_l.
  destruct (forces_single_thread self); simpl; [|done].
  case_bool_decide as Heq.
  - subst k. by rewrite lookup_insert_eq.
  - by rewrite lookup_insert_ne.
Qed.

Lemma build_dict_user_overrides_witness :
  build_dict yarn_named "pipe" !! key_name = Some (PyStr "mine")
  ∧ build_dict local_four_threads "pipe" !! key_threads_per_worker
    = Some (PyInt 1).
Proof.
  split.
  - apply (build_dict_user_overrides yarn_named "pipe" key_name
             (PyStr "mine")).
    reflexivity.
  - apply (build_dict_user_overrides local_four_threads "pipe"
             key_threads_per_worker (PyInt 4)).
    reflexivity.
Defined.

(** C4: on the local kind, when the merged options hold no [address] the
    returned mapping has [threads_per_worker = 1]; when they hold one, the
    returned mapping is the user's options as they are: nothing is added. *)
Theorem build_dict_local_threads self pipeline_name :
  cluster_type self = kind_local →
  (merged_options self pipeline_name !! key_address = None →
   build_dict self pipeline_name !! key_threads_per_worker
   = Some (PyInt 1))
  ∧ (is_Some (merged_options self pipeline_name !! key_address) →
     build_dict self pipeline_name = cluster_configuration self
     ∧ build_dict self pipeline_name !! key_threads_per_worker
       = cluster_configuration self !! key_threads_per_worker).
Proof.
  intros Hlocal.
  assert (Hbase : merged_options self pipeline_name
                  = cluster_configuration self).
  { unfold merged_options, base_defaults. rewrite Hlocal.
    rewrite bool_decide_eq_false_2.
    - by rewrite (right_id_L ∅ (∪)).
    - intros Hin. vm_compute in Hin.
      repeat (apply elem_of_cons in Hin as [Hin|Hin]; [discriminate|]).
      by apply elem_of_nil in Hin. }
  rewrite build_dict_unfold, merged_options_address. unfold forces_single_thread.
  rewrite Hbase, (bool_decide_eq_true_2 _ Hlocal). simpl. split.
  - intros Hnone. rewrite bool_decide_eq_false_2.
    + simpl. by rewrite lookup_insert_eq.
    + rewrite Hnone. by intros [? ?].
  - intros Hsome. by rewrite (bool_decide_eq_true_2 _ Hsome).
Qed.

Lemma build_dict_local_threads_witness :
  build_dict local_four_threads "pipe" !! key_threads_per_worker
    = Some (PyInt 1)
  ∧ build_dict local_with_address "pipe"
    = cluster_configuration local_with_address.
Proof.
  split.
  - apply (build_dict_local_threads local_four_threads "pipe" eq_refl).
    reflexivity.
  - apply (build_dict_local_threads local_with_address "pipe" eq_refl).
    vm_compute. eauto.
Defined.

(** ** The resource-requirement extractor *)

(** C6: no tag, the empty mapping; a tag, exactly what the decoder makes of
    its payload; a payload the decoder rejects, an exception. *)
Theorem get_dask_resource_requirements_spec
    (json_loads : string → option pyval) (tags : gmap string string) :
  (tags !! DASK_RESOURCE_REQUIREMENTS_KEY = None →
   get_dask_resource_requirements json_loads tags = Ok (PyDict ∅))
  ∧ (∀ req_str v,
       tags !! DASK_RESOURCE_REQUIREMENTS_KEY = Some req_str →
       json_loads req_str = Some v →
       get_dask_resource_requirements json_loads tags = Ok v)
  ∧ (∀ req_str,
       tags !! DASK_RESOURCE_REQUIREMENTS_KEY = Some req_str →
       json_loads req_str = None →
       get_dask_resource_requirements json_loads tags
       = Raise (JSONDecodeError req_str)).
Proof.
  unfold get_dask_resource_requirements. repeat split.
  - by intros ->.
  - by intros req_str v -> ->.
  - by intros req_str -> ->.
Qed.

Example resource_requirements_absent :
  get_dask_resource_requirements sample_json_loads ∅ = Ok (PyDict ∅).
Proof. reflexivity. Qed.

Example resource_requirements_present :
  get_dask_resource_requirements sample_json_loads
    {[ DASK_RESOURCE_REQUIREMENTS_KEY := "1" ]} = Ok (PyInt 1).
Proof. reflexivity. Qed.

Example resource_requirements_malformed :
  get_dask_resource_requirements sample_json_loads
    {[ DASK_RESOURCE_REQUIREMENTS_KEY := "{GPU" ]}
  = Raise (JSONDecodeError "{GPU").
Proof. reflexivity. Qed.

(** ** The monad and its loops *)

Lemma bind_unfold {A B} (m : M A) (k : A → M B) t :
  (m ≫= k) t
  = match m t with
    | (t', Ok a) => k a t'
    | (t', Raise e) => (t', Raise e)
    end.
Proof. reflexivity. Qed.

Lemma bind_ok {A B} (m : M A) (k : A → M B) t t' a :
  m t = (t', Ok a) → (m ≫= k) t = k a t'.
Proof. intros H. by rewrite bind_unfold, H. Qed.

Lemma bind_raise {A B} (m : M A) (k : A → M B) t t' e :
  m t = (t', Raise e) → (m ≫= k) t = (t', Raise e).
Proof. intros H. by rewrite bind_unfold, H. Qed.

Lemma for_in_app {A S} (xs ys : list A) (body : A → S → M S) s t :
  for_in (xs ++ ys) body s t
  = (for_in xs body s ≫= for_in ys body) t.
Proof.
  revert s t. induction xs as [|x xs IH]; intros s t; [done|].
  simpl. rewrite !bind_unfold. destruct (body x s t) as [t' [s'|e]]; [|done].
  by rewrite IH.
Qed.

Lemma emits_silent {A} P (m : M A) :
  (∀ t, (m t).1 = t) → emits P m.
Proof.
  intros H t. exists []. rewrite H. split; [|constructor].
  by rewrite (right_id_L [] (++)).
Qed.

Lemma emits_emit P ev : P ev → emits P (emit ev).
Proof. intros H t. exists [ev]. split; [done|]. by constructor. Qed.

Lemma emits_bind {A B} P (m : M A) (k : A → M B) :
  emits P m → (∀ a, emits P (k a)) → emits P (m ≫= k).
Proof.
  intros Hm Hk t. rewrite bind_unfold. destruct (Hm t) as (t1 & H1 & HP1).
  destruct (m t) as [t' [a|e]]; simpl in *; subst.
  - destruct (Hk a (t ++ t1)) as (t2 & -> & HP2). exists (t1 ++ t2).
    split; [by rewrite (assoc_L (++))|]. by apply Forall_app.
  - by exists t1.
Qed.

Lemma emits_for_in {A S} P (xs : list A) (body : A → S → M S) s :
  (∀ x s, emits P (body x s)) → emits P (for_in xs body s).
Proof.
  intros Hb. revert s. induction xs as [|x xs IH]; intros s.
  - by apply emits_silent.
  - simpl. apply emits_bind; [apply Hb|]. intros s'. apply IH.
Qed.

(** ** The submission loop *)

Lemma n_submitted_snoc_submit t call :
  n_submitted (t ++ [EvSubmit call]) = S (n_submitted t).
Proof.
  unfold n_submitted. rewrite filter_app, length_app. simpl. lia.
Qed.

Lemma n_submitted_app t1 t2 :
  n_submitted (t1 ++ t2) = n_submitted t1 + n_submitted t2.
Proof. unfold n_submitted. by rewrite filter_app, length_app. Qed.

Lemma levels_ordered_split earlier before level after :
  levels_ordered earlier (before ++ level :: after) = true →
  ∀ step k,
    step ∈ level → k ∈ step_dependency_keys step →
    k ∈ earlier ++ plan_keys before.
Proof.
  revert earlier. induction before as [|l before IH]; intros earlier H.
  - simpl in H. apply andb_true_iff in H as [H _].
    intros step k Hstep Hk. unfold plan_keys. simpl.
    rewrite (right_id_L [] (++)).
    rewrite forallb_forall in H. apply list_elem_of_In in Hstep.
    specialize (H _ Hstep). rewrite forallb_forall in H.
    apply list_elem_of_In in Hk. specialize (H _ Hk).
    by apply bool_decide_eq_true in H.
  - simpl in H. apply andb_true_iff in H as [_ H].
    intros step k Hstep Hk. specialize (IH _ H step k Hstep Hk).
    unfold plan_keys in *. simpl. rewrite fmap_app.
    by rewrite (assoc_L (++)).
Qed.

Section Submission.

Variable json_loads : string → option pyval.
Variable ctx : pipeline_context.

Lemma submit_levels_flat levels s t :
  submit_levels json_loads ctx levels s t
  = submit_level json_loads ctx (concat levels) s t.
Proof.
  revert s t. unfold submit_levels, submit_level.
  induction levels as [|level levels IH]; intros s t; [done|].
  simpl. rewrite for_in_app, !bind_unfold.
  destruct (for_in level _ s t) as [t' [s'|e]]; [|done].
  apply IH.
Qed.

Lemma collect_keys_ok (futures_dict : gmap string Future) keys acc t :
  (∀ k, k ∈ keys → is_Some (futures_dict !! k)) →
  ∃ fs,
    for_in keys
      (λ key dependencies,
         f ← getitem futures_dict key; mret (dependencies ++ [f]))
      acc t
    = (t, Ok (acc ++ fs))
    ∧ Forall2 (λ k f, futures_dict !! k = Some f) keys fs.
Proof.
  revert acc. induction keys as [|k keys IH]; intros acc Hin.
  - exists []. split; [|constructor]. simpl.
    by rewrite (right_id_L [] (++)).
  - destruct (Hin k) as [f Hf]; [by left|].
    destruct (IH (acc ++ [f])) as (fs & Hrun & Hfs).
    { intros k' Hk'. apply Hin. by right. }
    exists (f :: fs). split; [|by constructor].
    assert (Hb : (getitem futures_dict k
                    ≫= λ f : Future, mret (acc ++ [f])) t
                 = (t, Ok (acc ++ [f]))).
    { rewrite bind_unfold. unfold getitem. by rewrite Hf. }
    cbn [for_in]. rewrite (bind_ok _ _ _ _ _ Hb), Hrun.
    by rewrite <- (assoc_L (++)).
Qed.

Lemma collect_dependencies_ok (futures_dict : gmap string Future) step t :
  (∀ k, k ∈ step_dependency_keys step → is_Some (futures_dict !! k)) →
  ∃ deps,
    collect_dependencies futures_dict step t = (t, Ok deps)
    ∧ Forall2 (λ k f, futures_dict !! k = Some f)
              (step_dependency_keys step) deps.
Proof.
  unfold collect_dependencies, step_dependency_keys.
  generalize (step_inputs step) as inputs. intros inputs.
  assert (Hgen : ∀ acc,
    (∀ k, k ∈ concat (dependency_keys <$> inputs) →
          is_Some (futures_dict !! k)) →
    ∃ fs,
      for_in inputs
        (λ step_input dependencies,
           for_in (dependency_keys step_input)
             (λ key dependencies,
                f ← getitem futures_dict key; mret (dependencies ++ [f]))
             dependencies)
        acc t
      = (t, Ok (acc ++ fs))
      ∧ Forall2 (λ k f, futures_dict !! k = Some f)
                (concat (dependency_keys <$> inputs)) fs).
  { induction inputs as [|i inputs IH]; intros acc Hin.
    - exists []. split; [|constructor]. simpl.
      by rewrite (right_id_L [] (++)).
    - simpl in Hin.
      destruct (collect_keys_ok futures_dict (dependency_keys i) acc t)
        as (fs1 & Hrun1 & Hfs1).
      { intros k Hk. apply Hin. apply elem_of_app. by left. }
      destruct (IH (acc ++ fs1)) as (fs2 & Hrun2 & Hfs2).
      { intros k Hk. apply Hin. apply elem_of_app. by right. }
      exists (fs1 ++ fs2). split.
      + cbn [for_in]. rewrite (bind_ok _ _ _ _ _ Hrun1), Hrun2.
        by rewrite <- (assoc_L (++)).
      + simpl. by apply Forall2_app. }
  intros Hin. destruct (Hgen [] Hin) as (fs & Hrun & Hfs).
  exists fs. by split.
Qed.

Lemma submitted_inv_init t :
  submitted_inv ctx (n_submitted t) [] t no_submissions.
Proof.
  split; simpl; [lia|done|].
  intros k f. rewrite lookup_empty. split; [done|].
  by intros (i & step & Hi & _).
Qed.

Lemma submitted_inv_is_Some n0 done t s k :
  submitted_inv ctx n0 done t s →
  k ∈ key <$> done → is_Some (execution_futures_dict s !! k).
Proof.
  intros Hinv Hk. apply list_elem_of_fmap in Hk as (step & -> & Hstep).
  apply list_elem_of_lookup in Hstep as [i Hi].
  exists (step_future ctx (n0 + i) step).
  apply (inv_dict _ _ _ _ _ Hinv). by exists i, step.
Qed.

Lemma submit_step_inv n0 done t s step :
  submitted_inv ctx n0 done t s →
  key step ∉ key <$> done →
  (∀ k, k ∈ step_dependency_keys step → k ∈ key <$> done) →
  tags_decodable json_loads step →
  ∃ call s',
    submit_step json_loads ctx step s t = (t ++ [EvSubmit call], Ok s')
    ∧ submitted_inv ctx n0 (done ++ [step]) (t ++ [EvSubmit call]) s'
    ∧ sc_key call = dask_task_name (pipeline_name ctx) (key step)
    ∧ Forall2 (λ k f, execution_futures_dict s !! k = Some f)
              (step_dependency_keys step) (sc_dependencies call).
Proof.
  intros Hinv Hfresh Hdeps [resources Hres].
  destruct (collect_dependencies_ok (execution_futures_dict s) step t)
    as (deps & Hrun & Hfs).
  { intros k Hk. eapply submitted_inv_is_Some; eauto. }
  eexists _, _. split; [|split; [|split]].
  - unfold submit_step. rewrite (bind_ok _ _ _ _ _ Hrun).
    rewrite bind_unfold. unfold lift. rewrite Hres.
    rewrite bind_unfold. unfold client_submit. reflexivity.
  - destruct Hinv as [Hcount Hfuts Hdict]. split; simpl.
    + rewrite n_submitted_snoc_submit, length_app. simpl. lia.
    + rewrite Hfuts, imap_app. simpl. unfold step_future.
      by rewrite Hcount, Nat.add_0_r.
    + intros k f. destruct (decide (key step = k)) as [<-|Hne].
      * rewrite lookup_insert_eq. split.
        -- intros [= <-]. exists (length done), step.
           rewrite lookup_app_r, Nat.sub_diag by lia.
           split; [done|]. split; [done|].
           unfold step_future. by rewrite Hcount.
        -- intros (i & step' & Hi & Hkey & ->).
           apply lookup_app_Some in Hi as [Hi|[Hlen Hi]].
           ++ exfalso. apply Hfresh. rewrite <- Hkey.
              apply list_elem_of_fmap. exists step'. split; [done|].
              apply list_elem_of_lookup. by exists i.
           ++ apply list_lookup_singleton_Some in Hi as [Hi <-].
              f_equal. unfold step_future. f_equal. lia.
      * rewrite lookup_insert_ne by done. rewrite Hdict. split.
        -- intros (i & step' & Hi & Hkey & ->). exists i, step'.
           split; [|done]. apply lookup_app_Some. by left.
        -- intros (i & step' & Hi & Hkey & ->). exists i, step'.
           split; [|done].
           apply lookup_app_Some in Hi as [Hi|[Hlen Hi]]; [done|].
           apply list_lookup_singleton_Some in Hi as [_ <-]. done.
  - done.
  - done.
Qed.

Lemma deps_before_level seen level rest :
  (∀ step k, step ∈ level → k ∈ step_dependency_keys step → k ∈ seen) →
  deps_before (seen ++ (key <$> level)) rest →
  deps_before seen (level ++ rest).
Proof.
  revert seen. induction level as [|a level IH]; intros seen Hlevel Hrest.
  - simpl in *. by rewrite (right_id_L [] (++)) in Hrest.
  - simpl. split.
    + intros k Hk. apply (Hlevel a k); [by left|done].
    + apply IH.
      * intros step k Hstep Hk. apply elem_of_app. left.
        apply (Hlevel step k); [by right|done].
      * rewrite <- (assoc_L (++)). exact Hrest.
Qed.

Lemma levels_ordered_deps_before seen levels :
  levels_ordered seen levels = true → deps_before seen (concat levels).
Proof.
  revert seen. induction levels as [|level levels IH]; intros seen H.
  - done.
  - simpl in H. apply andb_true_iff in H as [Hl Hr]. simpl.
    apply deps_before_level; [|by apply IH].
    intros step k Hstep Hk. rewrite forallb_forall in Hl.
    apply list_elem_of_In in Hstep. specialize (Hl _ Hstep).
    rewrite forallb_forall in Hl. apply list_elem_of_In in Hk.
    specialize (Hl _ Hk). by apply bool_decide_eq_true in Hl.
Qed.

Lemma submit_level_inv n0 todo : ∀ done t s,
  submitted_inv ctx n0 done t s →
  NoDup (key <$> (done ++ todo)) →
  deps_before (key <$> done) todo →
  Forall (tags_decodable json_loads) todo →
  ∃ t' s',
    submit_level json_loads ctx todo s t = (t', Ok s')
    ∧ submitted_inv ctx n0 (done ++ todo) t' s'.
Proof.
  unfold submit_level.
  induction todo as [|step todo IH]; intros done t s Hinv Hnd Hdeps Hdec.
  - exists t, s. by rewrite (right_id_L [] (++)).
  - destruct Hdeps as [Hstep Hdeps].
    apply Forall_cons in Hdec as [Hdec1 Hdec].
    destruct (submit_step_inv n0 done t s step Hinv)
      as (call & s' & Hrun & Hinv' & _); [|done|done|].
    { rewrite fmap_app in Hnd. apply NoDup_app in Hnd as (_ & Hnd & _).
      intros Hin. apply (Hnd _ Hin). simpl. by left. }
    destruct (IH (done ++ [step]) (t ++ [EvSubmit call]) s' Hinv')
      as (t'' & s'' & Hrun' & Hinv''); [| |done|].
    { by rewrite <- (assoc_L (++)). }
    { by rewrite fmap_app. }
    exists t'', s''. split.
    + cbn [for_in]. by rewrite (bind_ok _ _ _ _ _ Hrun).
    + by rewrite <- (assoc_L (++)) in Hinv''.
Qed.

End Submission.

Lemma deps_before_app_l seen steps rest :
  deps_before seen (steps ++ rest) → deps_before seen steps.
Proof.
  revert seen. induction steps as [|step steps IH]; intros seen H; [done|].
  destruct H as [H1 H2]. split; [done|]. by apply IH.
Qed.

Lemma valid_plan_unfold levels :
  valid_plan levels = true →
  levels_ordered [] levels = true ∧ NoDup (plan_keys levels).
Proof.
  unfold valid_plan. intros H. apply andb_true_iff in H as [H1 H2].
  split; [done|]. by apply bool_decide_eq_true in H2.
Qed.

(** When the tags of the steps before [step] decode, the loop reaches
    [step] with every dependency key already in the map. *)
Lemma dependencies_ready
    (json_loads : string → option pyval) (ctx : pipeline_context)
    (earlier : step_levels_t) (before : list ExecutionStep)
    (step : ExecutionStep) (after : list ExecutionStep)
    (later : step_levels_t) (t0 : list effect) :
  valid_plan (earlier ++ (before ++ step :: after) :: later) = true →
  Forall (tags_decodable json_loads) (concat earlier ++ before) →
  ∃ t s deps,
    (submit_levels json_loads ctx earlier no_submissions
       ≫= submit_level json_loads ctx before) t0 = (t, Ok s)
    ∧ collect_dependencies (execution_futures_dict s) step t = (t, Ok deps)
    ∧ Forall2
        (λ k f,
           execution_futures_dict s !! k = Some f
           ∧ n_submitted t0 ≤ fut_id f < n_submitted t
           ∧ fut_key f = dask_task_name (pipeline_name ctx) k
           ∧ ∃ dep_step, dep_step ∈ concat earlier ∧ key dep_step = k)
        (step_dependency_keys step) deps.
Proof.
  intros Hvalid Hdec.
  apply valid_plan_unfold in Hvalid as [Hord Hnd].
  pose proof (levels_ordered_split _ _ _ _ Hord step) as Hearlier.
  apply levels_ordered_deps_before in Hord.
  unfold plan_keys in Hnd. rewrite concat_app in Hnd, Hord. simpl in Hnd, Hord.
  rewrite <- (assoc_L (++)) in Hnd, Hord.
  rewrite (assoc_L (++) (concat earlier) before) in Hnd, Hord.
  apply deps_before_app_l in Hord.
  rewrite fmap_app in Hnd. apply NoDup_app in Hnd as (Hnd & _ & _).
  destruct (submit_level_inv json_loads ctx (n_submitted t0)
              (concat earlier ++ before) [] t0 no_submissions)
    as (t & s & Hrun & Hinv); [apply submitted_inv_init|done|done|done|].
  simpl in Hinv.
  assert (Hkeys : ∀ k, k ∈ step_dependency_keys step →
                       k ∈ key <$> concat earlier).
  { intros k Hk. apply (Hearlier k); [|done].
    apply elem_of_app. right. by left. }
  destruct (collect_dependencies_ok (execution_futures_dict s) step t)
    as (deps & Hcol & Hfs).
  { intros k Hk. eapply submitted_inv_is_Some; [exact Hinv|].
    rewrite fmap_app. apply elem_of_app. left. by apply Hkeys. }
  exists t, s, deps. split; [|split; [done|]].
  - rewrite bind_unfold, submit_levels_flat.
    unfold submit_level in *. rewrite for_in_app, bind_unfold in Hrun.
    exact Hrun.
  - apply Forall2_same_length_lookup in Hfs as [Hlen Hfs].
    apply Forall2_same_length_lookup. split; [done|].
    intros i k f Hk Hf. specialize (Hfs i k f Hk Hf).
    split; [done|].
    apply (inv_dict _ _ _ _ _ Hinv) in Hfs as (j & dep & Hj & Hkey & ->).
    simpl. apply lookup_lt_Some in Hj as Hlt.
    rewrite (inv_count _ _ _ _ _ Hinv).
    split; [lia|]. split; [by rewrite Hkey|].
    assert (Hin : k ∈ key <$> concat earlier).
    { apply Hkeys. apply list_elem_of_lookup. by exists i. }
    apply list_elem_of_fmap in Hin as (dep' & -> & Hdep').
    by exists dep'.
Qed.

(** The loop gets past a step only when the step's tag decodes. *)
Lemma submit_step_ok_decodable json_loads ctx step s t t' s' :
  submit_step json_loads ctx step s t = (t', Ok s') →
  tags_decodable json_loads step.
Proof.
  unfold submit_step, tags_decodable. rewrite bind_unfold.
  destruct (collect_dependencies _ step t) as [t1 [deps|e]]; [|done].
  rewrite bind_unfold. unfold lift.
  destruct (get_dask_resource_requirements json_loads (tags step));
    [by eexists|done].
Qed.

Lemma submit_level_ok_decodable json_loads ctx steps : ∀ s t t' s',
  submit_level json_loads ctx steps s t = (t', Ok s') →
  Forall (tags_decodable json_loads) steps.
Proof.
  unfold submit_level.
  induction steps as [|step steps IH]; intros s t t' s' Hrun; [done|].
  cbn [for_in] in Hrun. rewrite bind_unfold in Hrun.
  destruct (submit_step json_loads ctx step s t) as [t1 [s1|e]] eqn:Hstep;
    [|done].
  constructor; [by eapply submit_step_ok_decodable|by eapply IH].
Qed.

Lemma loop_reaches_flat json_loads ctx earlier before t :
  loop_reaches json_loads ctx earlier before t
  = submit_level json_loads ctx (concat earlier ++ before) no_submissions t.
Proof.
  unfold loop_reaches. rewrite bind_unfold, submit_levels_flat.
  unfold submit_level. by rewrite for_in_app, bind_unfold.
Qed.

(** C1: in a valid plan, whenever the loop comes to a step (the earlier
    levels and the steps before it in its own level are submitted), every
    dependency lookup of the step succeeds, and each dependency future was
    created earlier in this pass, for a step of a strictly earlier level.
    The loop does come to the step when the tags of the steps before it
    decode. *)
Theorem dependencies_submitted_first
    (json_loads : string → option pyval) (ctx : pipeline_context)
    (earlier : step_levels_t) (before : list ExecutionStep)
    (step : ExecutionStep) (after : list ExecutionStep)
    (later : step_levels_t) (t0 : list effect) :
  valid_plan (earlier ++ (before ++ step :: after) :: later) = true →
  (Forall (tags_decodable json_loads) (concat earlier ++ before) →
   ∃ t s, loop_reaches json_loads ctx earlier before t0 = (t, Ok s))
  ∧ ∀ t s,
      loop_reaches json_loads ctx earlier before t0 = (t, Ok s) →
      ∃ deps,
        collect_dependencies (execution_futures_dict s) step t
        = (t, Ok deps)
        ∧ Forall2
            (λ k f,
               execution_futures_dict s !! k = Some f
               ∧ n_submitted t0 ≤ fut_id f < n_submitted t
               ∧ fut_key f = dask_task_name (pipeline_name ctx) k
               ∧ ∃ dep_step, dep_step ∈ concat earlier ∧ key dep_step = k)
            (step_dependency_keys step) deps.
Proof.
  intros Hvalid. split.
  - intros Hdec.
    destruct (dependencies_ready json_loads ctx earlier before step after
                later t0 Hvalid Hdec) as (t & s & _ & Hrun & _).
    by exists t, s.
  - intros t s Hrun.
    assert (Hdec : Forall (tags_decodable json_loads)
                     (concat earlier ++ before)).
    { rewrite loop_reaches_flat in Hrun.
      by eapply submit_level_ok_decodable. }
    destruct (dependencies_ready json_loads ctx earlier before step after
                later t0 Hvalid Hdec) as (t' & s' & deps & Hrun' & Hcol & H).
    unfold loop_reaches in Hrun. rewrite Hrun in Hrun'.
    injection Hrun' as <- <-. by exists deps.
Qed.

Lemma dependencies_submitted_first_witness :
  ∃ t s deps,
    loop_reaches sample_json_loads sample_context [[step_A; step_B]] [] []
    = (t, Ok s)
    ∧ collect_dependencies (execution_futures_dict s) step_C t = (t, Ok deps)
    ∧ length deps = 2.
Proof.
  destruct (dependencies_submitted_first sample_json_loads sample_context
              [[step_A; step_B]] [] step_C [] [] [])
    as [Hreach Hdeps].
  - vm_compute. reflexivity.
  - destruct Hreach as (t & s & Hrun).
    + repeat constructor; eexists; reflexivity.
    + destruct (Hdeps t s Hrun) as (deps & Hcol & Hall).
      exists t, s, deps. split; [exact Hrun|]. split; [exact Hcol|].
      apply Forall2_length in Hall. rewrite <- Hall. reflexivity.
Defined.

(** A pass over a valid plan whose tags decode ends normally, with one
    future per step. *)
Lemma submission_pass_complete
    (json_loads : string → option pyval) (ctx : pipeline_context)
    (levels : step_levels_t) (t0 : list effect) :
  valid_plan levels = true →
  Forall (tags_decodable json_loads) (concat levels) →
  ∃ t s,
    submit_levels json_loads ctx levels no_submissions t0 = (t, Ok s)
    ∧ (∀ k, is_Some (execution_futures_dict s !! k) ↔ k ∈ plan_keys levels)
    ∧ size (execution_futures_dict s) = length (concat levels)
    ∧ length (execution_futures s) = length (concat levels)
    ∧ n_submitted t = n_submitted t0 + length (concat levels)
    ∧ (∀ i step,
         concat levels !! i = Some step →
         execution_futures_dict s !! key step
         = Some (step_future ctx (n_submitted t0 + i) step)
         ∧ execution_futures s !! i
           = Some (step_future ctx (n_submitted t0 + i) step)).
Proof.
  intros Hvalid Hdec.
  apply valid_plan_unfold in Hvalid as [Hord Hnd].
  apply levels_ordered_deps_before in Hord.
  destruct (submit_level_inv json_loads ctx (n_submitted t0)
              (concat levels) [] t0 no_submissions)
    as (t & s & Hrun & Hinv); [apply submitted_inv_init|done|done|done|].
  simpl in Hinv. destruct Hinv as [Hcount Hfuts Hdict].
  assert (Hdom : ∀ k, is_Some (execution_futures_dict s !! k)
                      ↔ k ∈ plan_keys levels).
  { intros k. unfold plan_keys. split.
    - intros [f Hf]. apply Hdict in Hf as (i & step & Hi & <- & _).
      apply list_elem_of_fmap. exists step. split; [done|].
      apply list_elem_of_lookup. by exists i.
    - intros Hk. apply list_elem_of_fmap in Hk as (step & -> & Hstep).
      apply list_elem_of_lookup in Hstep as [i Hi].
      eexists. apply Hdict. by exists i, step. }
  exists t, s. split; [by rewrite submit_levels_flat|].
  split; [exact Hdom|]. split; [|split; [|split; [done|]]].
  - rewrite <- size_dom.
    assert (Heq : dom (execution_futures_dict s)
                  = list_to_set (plan_keys levels)).
    { apply set_eq. intros k.
      by rewrite elem_of_dom, elem_of_list_to_set. }
    rewrite Heq, size_list_to_set by done.
    unfold plan_keys. by rewrite length_fmap.
  - by rewrite Hfuts, length_imap.
  - intros i step Hi. split.
    + apply Hdict. by exists i, step.
    + rewrite Hfuts, list_lookup_imap, Hi. done.
Qed.

(** C8: after a full submission pass over a valid plan, the
    submitted-futures map has exactly the plan's step keys, one entry per
    step, each mapped to the future created for that step (the [i]-th step
    of the pass gets the [i]-th future of the client, which is also the
    [i]-th entry of the worklist), and exactly one task was submitted per
    step. The pass does end normally when the tags of the plan decode. *)
Theorem submission_pass_one_future_per_step
    (json_loads : string → option pyval) (ctx : pipeline_context)
    (levels : step_levels_t) (t0 : list effect) :
  valid_plan levels = true →
  (Forall (tags_decodable json_loads) (concat levels) →
   ∃ t s, submit_levels json_loads ctx levels no_submissions t0 = (t, Ok s))
  ∧ ∀ t s,
      submit_levels json_loads ctx levels no_submissions t0 = (t, Ok s) →
      (∀ k, is_Some (execution_futures_dict s !! k) ↔ k ∈ plan_keys levels)
      ∧ size (execution_futures_dict s) = length (concat levels)
      ∧ length (execution_futures s) = length (concat levels)
      ∧ n_submitted t = n_submitted t0 + length (concat levels)
      ∧ (∀ i step,
           concat levels !! i = Some step →
           execution_futures_dict s !! key step
           = Some (step_future ctx (n_submitted t0 + i) step)
           ∧ execution_futures s !! i
             = Some (step_future ctx (n_submitted t0 + i) step)).
Proof.
  intros Hvalid. split.
  - intros Hdec.
    destruct (submission_pass_complete json_loads ctx levels t0 Hvalid Hdec)
      as (t & s & Hrun & _).
    by exists t, s.
  - intros t s Hrun.
    assert (Hdec : Forall (tags_decodable json_loads) (concat levels)).
    { rewrite submit_levels_flat in Hrun.
      by eapply submit_level_ok_decodable. }
    destruct (submission_pass_complete json_loads ctx levels t0 Hvalid Hdec)
      as (t' & s' & Hrun' & H).
    rewrite Hrun in Hrun'. injection Hrun' as <- <-. exact H.
Qed.

Lemma submission_pass_one_future_per_step_witness :
  ∃ t s,
    submit_levels sample_json_loads sample_context diamond_plan
      no_submissions [] = (t, Ok s)
    ∧ size (execution_futures_dict s) = 3
    ∧ execution_futures_dict s !! "C"
      = Some {| fut_key := "pipe.C"; fut_id := 2 |}.
Proof.
  destruct (submission_pass_one_future_per_step sample_json_loads
              sample_context diamond_plan [])
    as [Hends Hafter].
  - vm_compute. reflexivity.
  - destruct Hends as (t & s & Hrun).
    + repeat constructor; eexists; reflexivity.
    + destruct (Hafter t s Hrun) as (_ & Hsize & _ & _ & Hmap).
      exists t, s. split; [exact Hrun|]. split; [exact Hsize|].
      exact (proj1 (Hmap 2 step_C eq_refl)).
Defined.

(** ** The checks and the cluster dispatch of [execute] *)

Lemma cluster_class_of_None cluster_type :
  cluster_type ∉ known_kinds → cluster_class_of cluster_type = None.
Proof.
  intros Hnot. unfold cluster_class_of.
  repeat (case_bool_decide;
          [exfalso; apply Hnot; subst; unfold known_kinds;
           apply list_elem_of_In; simpl; tauto|]).
  done.
Qed.

Lemma cluster_class_of_Some cluster_type :
  cluster_type ∈ known_kinds → is_Some (cluster_class_of cluster_type).
Proof.
  intros Hin. unfold cluster_class_of.
  repeat (case_bool_decide; [by eexists|]).
  exfalso. unfold known_kinds in Hin.
  repeat (apply elem_of_cons in Hin as [Hin|Hin]; [done|]).
  by apply elem_of_nil in Hin.
Qed.

Lemma new_cluster_spec self pipeline_name t :
  new_cluster self pipeline_name t
  = match cluster_class_of (cluster_type self) with
    | Some cls =>
        (t ++ [EvCluster cls (build_dict self pipeline_name)], Ok cls)
    | None =>
        (t, Raise (ValueError
           ("Must be providing one of the following ('local', 'yarn', 'ssh', 'pbs', 'kube') not "
              +:+ cluster_type self)))
    end.
Proof.
  unfold new_cluster, cluster_class_of.
  repeat (case_bool_decide; [reflexivity|]). reflexivity.
Qed.

Lemma keys_nonempty (d : gmap string pyval) :
  (fst <$> map_to_list d) ≠ [] ↔ d ≠ ∅.
Proof.
  split; intros H Hd; apply H.
  - by rewrite Hd, map_to_list_empty.
  - apply fmap_nil_inv in Hd. by apply map_to_list_empty_iff.
Qed.

Lemma check_storage_ok ctx t :
  storage_named ctx = true →
  instance_is_persistent ctx = true →
  system_storage_def_is_persistent ctx = true →
  check_storage ctx t = (t, Ok tt).
Proof.
  unfold storage_named, check_storage, dict_get. intros Hs Hi Hp.
  destruct (run_config ctx !! key_storage) as [[| | | | |d]|]; try done.
  apply bool_decide_eq_true in Hs. rewrite Hi, Hp.
  rewrite bind_unfold. simpl. rewrite bind_unfold. unfold check_invariant.
  rewrite bool_decide_eq_true_2 by by apply keys_nonempty.
  reflexivity.
Qed.

Lemma check_storage_fails ctx d t :
  run_config ctx !! key_storage = Some (PyDict d) →
  d = ∅ ∨ instance_is_persistent ctx = false
  ∨ system_storage_def_is_persistent ctx = false →
  ∃ msg, check_storage ctx t = (t, Raise (CheckError msg)).
Proof.
  unfold check_storage, dict_get. intros -> H.
  rewrite bind_unfold. simpl. rewrite bind_unfold. unfold check_invariant.
  case_bool_decide as Hk; [|by eexists].
  unfold ret. rewrite bind_unfold.
  destruct (instance_is_persistent ctx); [|by eexists].
  unfold ret. destruct (system_storage_def_is_persistent ctx);
    [|by eexists].
  exfalso. apply keys_nonempty in Hk. by destruct H as [?|[?|?]].
Qed.

Lemma check_storage_absent ctx t :
  run_config ctx !! key_storage = None →
  check_storage ctx t
  = (t, Raise (AttributeError "'NoneType' object has no attribute 'keys'")).
Proof. unfold check_storage, dict_get. by intros ->. Qed.

Section ExecuteProperties.

Variable json_loads : string → option pyval.
Variable as_completed : list Future → list Future.
Variable future_result : Future → result (list pyobj).

Lemma preconditions_hold_unfold ctx :
  preconditions_hold ctx = true →
  executor_is_DaskExecutor ctx = true ∧ storage_named ctx = true
  ∧ instance_is_persistent ctx = true
  ∧ system_storage_def_is_persistent ctx = true.
Proof.
  unfold preconditions_hold. rewrite !andb_true_iff. tauto.
Qed.

(** Past the checks and the dispatch, [execute] is the client block
    under [with], after the cluster's construction. *)
Lemma execute_reaches_client self ctx step_levels cls t :
  preconditions_hold ctx = true →
  cluster_class_of (cluster_type self) = Some cls →
  execute json_loads as_completed future_result self ctx step_levels t
  = with_client
      (client_block json_loads as_completed future_result ctx step_levels)
      (t ++ [EvCluster cls (build_dict self (pipeline_name ctx))]).
Proof.
  intros (He & Hs & Hi & Hp)%preconditions_hold_unfold Hcls.
  unfold execute. rewrite He. rewrite bind_unfold. simpl.
  rewrite bind_unfold, check_storage_ok by done.
  rewrite bind_unfold, new_cluster_spec, Hcls. reflexivity.
Qed.

(** An unknown kind past the checks: the [else] branch raises. *)
Lemma execute_unknown_kind self ctx step_levels t :
  preconditions_hold ctx = true →
  cluster_class_of (cluster_type self) = None →
  execute json_loads as_completed future_result self ctx step_levels t
  = (t, Raise (ValueError
       ("Must be providing one of the following ('local', 'yarn', 'ssh', 'pbs', 'kube') not "
          +:+ cluster_type self))).
Proof.
  intros (He & Hs & Hi & Hp)%preconditions_hold_unfold Hcls.
  unfold execute. rewrite He. rewrite bind_unfold. simpl.
  rewrite bind_unfold, check_storage_ok by done.
  rewrite bind_unfold, new_cluster_spec, Hcls. reflexivity.
Qed.

(** A failed check: [execute] raises with the trace untouched. *)
Lemma execute_check_fails self ctx step_levels t :
  preconditions_hold ctx = false →
  ∃ e, execute json_loads as_completed future_result self ctx
         step_levels t = (t, Raise e).
Proof.
  intros Hpre. unfold execute.
  destruct (executor_is_DaskExecutor ctx) eqn:He; [|by eexists].
  rewrite bind_unfold. simpl. rewrite bind_unfold.
  destruct (run_config ctx !! key_storage) as [v|] eqn:Hst.
  - destruct v as [| | | | |d];
      try (unfold check_storage, dict_get; rewrite Hst; by eexists).
    destruct (check_storage_fails ctx d t Hst) as [msg ->];
      [|by eexists].
    unfold preconditions_hold, storage_named in Hpre.
    rewrite He, Hst in Hpre. simpl in Hpre.
    case_bool_decide as Hd.
    + right. destruct (instance_is_persistent ctx); [|by left].
      destruct (system_storage_def_is_persistent ctx); [done|by right].
    + by left.
  - rewrite check_storage_absent by done. by eexists.
Qed.

(** The checks that fail on a storage section that is a mapping fail as
    check errors. *)
Lemma execute_invariant_failure self ctx step_levels d t :
  run_config ctx !! key_storage = Some (PyDict d) →
  d = ∅ ∨ instance_is_persistent ctx = false
  ∨ system_storage_def_is_persistent ctx = false →
  ∃ msg, execute json_loads as_completed future_result self ctx
           step_levels t = (t, Raise (CheckError msg)).
Proof.
  intros Hst H. unfold execute.
  destruct (executor_is_DaskExecutor ctx) eqn:He; [|by eexists].
  rewrite bind_unfold. simpl. rewrite bind_unfold.
  destruct (check_storage_fails ctx d t Hst H) as [msg ->]. by eexists.
Qed.

End ExecuteProperties.

(** ** What the client block does to the trace *)

Section ClientBlock.

Variable json_loads : string → option pyval.
Variable as_completed : list Future → list Future.
Variable future_result : Future → result (list pyobj).

Lemma emits_collect_dependencies futures_dict step :
  emits is_body_effect (collect_dependencies futures_dict step).
Proof.
  apply emits_for_in. intros step_input deps.
  apply emits_for_in. intros k deps'. apply emits_bind.
  - apply emits_silent. intros t. unfold getitem.
    by destruct (futures_dict !! k).
  - intros f. by apply emits_silent.
Qed.

Lemma emits_submit_step ctx step s :
  emits is_body_effect (submit_step json_loads ctx step s).
Proof.
  apply emits_bind; [apply emits_collect_dependencies|]. intros deps.
  apply emits_bind; [by apply emits_silent|]. intros resources.
  apply emits_bind; [|intros f; by apply emits_silent].
  intros t. eexists [_]. split; [done|]. by constructor.
Qed.

Lemma emits_submit_levels ctx step_levels s :
  emits is_body_effect (submit_levels json_loads ctx step_levels s).
Proof.
  apply emits_for_in. intros level s'. apply emits_for_in.
  intros step s''. apply emits_submit_step.
Qed.

Lemma emits_drain_futures futures :
  emits is_body_effect (drain_futures future_result futures).
Proof.
  apply emits_for_in. intros f []. apply emits_bind.
  - intros t. exists [EvResult f]. split; [done|]. by constructor.
  - intros objs. apply emits_for_in. intros obj []. apply emits_bind.
    + apply emits_silent. intros t. by destruct obj.
    + intros ev. by apply emits_emit.
Qed.

Lemma emits_client_block ctx step_levels :
  emits is_body_effect
    (client_block json_loads as_completed future_result ctx step_levels).
Proof.
  apply emits_bind; [apply emits_submit_levels|].
  intros s. apply emits_drain_futures.
Qed.

(** The drain stops at the first future that raises. *)
Lemma drain_stops_at_failure pre f post t t' e :
  drain_futures future_result pre t = (t', Ok tt) →
  future_result f = Raise e →
  drain_futures future_result (pre ++ f :: post) t
  = (t' ++ [EvResult f], Raise e).
Proof.
  intros Hpre Hf. unfold drain_futures in *.
  rewrite for_in_app, (bind_ok _ _ _ _ _ Hpre).
  cbn [for_in]. rewrite !bind_unfold. unfold call_result.
  by rewrite Hf.
Qed.

End ClientBlock.

(** ** Runs of [execute] *)


(** C2: when the drain has come to a future that raises (the futures
    handed back before it drained normally), [execute] raises that very
    exception; the trace is the one the drain had written up to then,
    followed by the wait on the failing future and the client's exit:
    the events yielded so far stay, and no later future is waited on or
    reported. *)
Theorem drain_failure_propagates
    (json_loads : string → option pyval)
    (as_completed : list Future → list Future)
    (future_result : Future → result (list pyobj))
    (self : DaskExecutor) (ctx : pipeline_context)
    (step_levels : step_levels_t) (cls : cluster_class)
    (t1 t2 : list effect) (s : submitted)
    (pre : list Future) (f : Future) (post : list Future) (e : exn) :
  preconditions_hold ctx = true →
  cluster_class_of (cluster_type self) = Some cls →
  submit_levels json_loads ctx step_levels no_submissions
    [EvCluster cls (build_dict self (pipeline_name ctx)); EvClientEnter]
  = (t1, Ok s) →
  as_completed (execution_futures s) = pre ++ f :: post →
  drain_futures future_result pre t1 = (t2, Ok tt) →
  future_result f = Raise e →
  run_execute json_loads as_completed future_result self ctx step_levels
  = (t2 ++ [EvResult f; EvClientExit], Raise e)
  ∧ ∃ drained, t2 = t1 ++ drained ∧ Forall is_body_effect drained.
Proof.
  intros Hpre Hcls Hsub Hord Hdrain Hf. split.
  - unfold run_execute.
    rewrite (execute_reaches_client _ _ _ _ _ _ cls) by done.
    unfold with_client, client_block. simpl.
    rewrite (bind_ok _ _ _ _ _ Hsub), Hord.
    rewrite (drain_stops_at_failure _ _ _ _ _ _ _ Hdrain Hf).
    by rewrite <- (assoc_L (++)).
  - destruct (emits_drain_futures future_result pre t1)
      as (drained & Heq & Hbody).
    rewrite Hdrain in Heq. by exists drained.
Qed.

Lemma drain_failure_propagates_witness :
  ∃ t, run_execute sample_json_loads sample_as_completed
         sample_future_result default_executor sample_context diamond_plan
       = (t ++ [EvResult (step_future sample_context 1 step_B);
                EvClientExit],
          Raise (RemoteError "boom")).
Proof.
  eexists.
  refine (proj1 (drain_failure_propagates sample_json_loads
                   sample_as_completed sample_future_result default_executor
                   sample_context diamond_plan LocalCluster _ _ _
                   [step_future sample_context 2 step_C]
                   (step_future sample_context 1 step_B)
                   [step_future sample_context 0 step_A]
                   (RemoteError "boom") _ _ _ _ _ _)).
  - reflexivity.
  - reflexivity.
  - vm_compute. reflexivity.
  - vm_compute. reflexivity.
  - vm_compute. reflexivity.
  - reflexivity.
Defined.

(** Without a storage section the first storage check cannot be
    evaluated: [None] has no [keys]. *)
Lemma execute_storage_absent
    (json_loads : string → option pyval)
    (as_completed : list Future → list Future)
    (future_result : Future → result (list pyobj))
    (self : DaskExecutor) (ctx : pipeline_context)
    (step_levels : step_levels_t) (t : list effect) :
  executor_is_DaskExecutor ctx = true →
  run_config ctx !! key_storage = None →
  execute json_loads as_completed future_result self ctx step_levels t
  = (t, Raise (AttributeError "'NoneType' object has no attribute 'keys'")).
Proof.
  intros He Hst. unfold execute. rewrite He, bind_unfold. simpl.
  by rewrite bind_unfold, check_storage_absent.
Qed.

(** C5, at the input where the code departs from it: a run configuration
    with no storage section. [run_config.get('storage')] is [None] and
    [storage.keys()] raises an [AttributeError] before the check that
    carries the message about storage is evaluated. Nothing is provisioned
    or submitted, but the exception is not the invariant failure. The
    other cases of C5 are [execute_invariant_failure]. *)
Theorem execute_without_storage_section :
  run_execute sample_json_loads sample_as_completed sample_future_result
    default_executor context_without_storage diamond_plan
  = ([], Raise (AttributeError "'NoneType' object has no attribute 'keys'")).
Proof. reflexivity. Qed.

(** C7: with a cluster kind outside the five known ones [execute] raises
    and its trace is empty: no cluster was built, no client entered, no
    step submitted. When the checks before the dispatch pass, the exception
    is the [ValueError] of the [else] branch. *)
Theorem unknown_kind_raises
    (json_loads : string → option pyval)
    (as_completed : list Future → list Future)
    (future_result : Future → result (list pyobj))
    (self : DaskExecutor) (ctx : pipeline_context)
    (step_levels : step_levels_t) :
  cluster_type self ∉ known_kinds →
  (∃ e, run_execute json_loads as_completed future_result self ctx
          step_levels = ([], Raise e))
  ∧ (preconditions_hold ctx = true →
     run_execute json_loads as_completed future_result self ctx step_levels
     = ([], Raise (ValueError
          ("Must be providing one of the following ('local', 'yarn', 'ssh', 'pbs', 'kube') not "
             +:+ cluster_type self)))).
Proof.
  intros Hkind%cluster_class_of_None. unfold run_execute.
  assert (Hval : preconditions_hold ctx = true →
                 execute json_loads as_completed future_result self ctx
                   step_levels []
                 = ([], Raise (ValueError
                      ("Must be providing one of the following ('local', 'yarn', 'ssh', 'pbs', 'kube') not "
                         +:+ cluster_type self))))
    by (intros Hpre; by apply execute_unknown_kind).
  split; [|exact Hval].
  destruct (preconditions_hold ctx) eqn:Hpre.
  - eexists. by apply Hval.
  - by apply execute_check_fails.
Qed.

Lemma unknown_kind_raises_witness :
  run_execute sample_json_loads sample_as_completed sample_future_result
    foo_executor sample_context diamond_plan
  = ([], Raise (ValueError
       "Must be providing one of the following ('local', 'yarn', 'ssh', 'pbs', 'kube') not foo")).
Proof.
  refine (proj2 (unknown_kind_raises sample_json_loads sample_as_completed
                   sample_future_result foo_executor sample_context
                   diamond_plan _) _).
  - intros Hin. unfold known_kinds in Hin.
    repeat (apply elem_of_cons in Hin as [Hin|Hin]; [discriminate|]).
    by apply elem_of_nil in Hin.
  - reflexivity.
Defined.


Lemma bind_ext {A B} (m m' : M A) (k k' : A → M B) t :
  (∀ t, m t = m' t) → (∀ a t, k a t = k' a t) →
  (m ≫= k) t = (m' ≫= k') t.
Proof.
  intros Hm Hk. rewrite !bind_unfold, Hm.
  destruct (m' t) as [t' [a|e]]; [apply Hk|done].
Qed.

Lemma new_cluster_env_spec cluster_constructor self pipeline_name t :
  new_cluster_env cluster_constructor self pipeline_name t
  = match cluster_class_of (cluster_type self) with
    | Some cls =>
        construct_cluster cluster_constructor cls
          (build_dict self pipeline_name) t
    | None =>
        (t, Raise (ValueError
           ("Must be providing one of the following ('local', 'yarn', 'ssh', 'pbs', 'kube') not "
              +:+ cluster_type self)))
    end.
Proof.
  unfold new_cluster_env, cluster_class_of.
  repeat (case_bool_decide; [reflexivity|]). reflexivity.
Qed.

(** When both constructors return, [execute_env] is [execute]. *)
Lemma execute_env_refines json_loads as_completed future_result
    cluster_constructor client_constructor self ctx step_levels t :
  (∀ cls kwargs, cluster_constructor cls kwargs = Ok tt) →
  (∀ cls, client_constructor cls = Ok tt) →
  execute_env json_loads as_completed future_result cluster_constructor
    client_constructor self ctx step_levels t
  = execute json_loads as_completed future_result self ctx step_levels t.
Proof.
  intros Hcluster Hclient. unfold execute_env, execute.
  apply bind_ext; [done|]. intros _ t1.
  apply bind_ext; [done|]. intros _ t2.
  apply bind_ext.
  - intros t3. rewrite new_cluster_env_spec, new_cluster_spec.
    destruct (cluster_class_of (cluster_type self)) as [cls|]; [|done].
    unfold construct_cluster. by rewrite Hcluster.
  - intros cluster t3. unfold with_client_env. by rewrite Hclient.
Qed.





(** C10: built from [None] and [None], the executor has kind ['local']
    and an empty configuration; [build_dict] then returns exactly
    [threads_per_worker = 1], and a run that passes the checks begins by
    building a [LocalCluster] with these arguments. *)
Theorem default_executor_is_local_single_thread :
  DaskExecutor_init PyNone PyNone = Ok default_executor
  ∧ cluster_type default_executor = kind_local
  ∧ cluster_configuration default_executor = ∅
  ∧ (∀ pipeline_name,
       build_dict default_executor pipeline_name
       = {[ key_threads_per_worker := PyInt 1 ]})
  ∧ (∀ json_loads as_completed future_result ctx step_levels,
       preconditions_hold ctx = true →
       ∃ rest outcome,
         run_execute json_loads as_completed future_result default_executor
           ctx step_levels
         = (EvCluster LocalCluster {[ key_threads_per_worker := PyInt 1 ]}
              :: EvClientEnter :: rest,
            outcome)).
Proof.
  assert (Hb : ∀ pipeline_name,
            build_dict default_executor pipeline_name
            = {[ key_threads_per_worker := PyInt 1 ]}).
  { intros pipeline_name. rewrite build_dict_unfold. reflexivity. }
  split; [reflexivity|]. split; [reflexivity|]. split; [reflexivity|].
  split; [exact Hb|].
  intros json_loads as_completed future_result ctx step_levels Hpre.
  unfold run_execute.
  rewrite (execute_reaches_client _ _ _ _ _ _ LocalCluster) by done.
  unfold with_client. simpl. rewrite Hb.
  destruct (emits_client_block json_loads as_completed future_result ctx
              step_levels
              [EvCluster LocalCluster {[ key_threads_per_worker := PyInt 1 ]};
               EvClientEnter])
    as (body & Hbody & _).
  destruct (client_block _ _ _ _ _ _) as [t' r]. simpl in *.
  rewrite Hbody. simpl. by eexists _, _.
Qed.

(** * Further properties of the code *)

Set Warnings "-clear-no-such-hyp".

(** ** [build_dict] on the kinds other than local *)

Lemma kind_local_not_named :
  kind_local ∉ [kind_yarn; kind_kube; kind_pbs].
Proof.
  intros Hin.
  repeat (apply elem_of_cons in Hin as [Hin|Hin]; [discriminate|]).
  by apply elem_of_nil in Hin.
Qed.

Lemma union_singleton_absorb {A} (m : gmap string A) k x :
  is_Some (m !! k) → m ∪ {[ k := x ]} = m.
Proof.
  intros [v Hv]. apply map_eq. intros k'.
  destruct (decide (k' = k)) as [->|Hne].
  - by rewrite (lookup_union_Some_l _ _ _ _ Hv).
  - destruct (m !! k') as [w|] eqn:Hk.
    + by apply lookup_union_Some_l.
    + apply lookup_union_None. split; [done|].
      by apply lookup_singleton_ne.
Qed.

Lemma forces_single_thread_not_local self :
  cluster_type self ≠ kind_local → forces_single_thread self = false.
Proof.
  intros Hne. unfold forces_single_thread.
  by rewrite bool_decide_eq_false_2.
Qed.

(** X1: for the kinds yarn, kube and pbs, [build_dict] returns the user's
    options with the cluster's display name defaulted to the pipeline
    name: a name the user gave stays, a missing one is filled in, and
    nothing else is touched. *)
Theorem build_dict_named_kinds self pipeline_name :
  cluster_type self ∈ [kind_yarn; kind_kube; kind_pbs] →
  build_dict self pipeline_name
  = match cluster_configuration self !! key_name with
    | Some _ => cluster_configuration self
    | None => <[ key_name := PyStr pipeline_name ]> (cluster_configuration self)
    end.
Proof.
  intros Hkind. rewrite build_dict_unfold.
  rewrite forces_single_thread_not_local.
  - unfold merged_options, base_defaults.
    rewrite (bool_decide_eq_true_2 _ Hkind).
    destruct (cluster_configuration self !! key_name) as [v|] eqn:Hname.
    + apply union_singleton_absorb. by rewrite Hname.
    + by rewrite insert_union_singleton_r.
  - intros Hlocal. rewrite Hlocal in Hkind.
    by apply kind_local_not_named.
Qed.

Lemma build_dict_named_kinds_witness :
  build_dict yarn_named "pipe" = {[ key_name := PyStr "mine" ]}
  ∧ build_dict {| cluster_type := kind_pbs; cluster_configuration := ∅ |}
      "pipe"
    = {[ key_name := PyStr "pipe" ]}.
Proof.
  split.
  - rewrite (build_dict_named_kinds yarn_named "pipe").
    + reflexivity.
    + apply list_elem_of_In. simpl. tauto.
  - rewrite (build_dict_named_kinds
               {| cluster_type := kind_pbs; cluster_configuration := ∅ |}
               "pipe").
    + reflexivity.
    + apply list_elem_of_In. simpl. tauto.
Defined.

(** X2: for every other kind that is not local (ssh, and any string the
    dispatch of [execute] would refuse), [build_dict] returns the user's
    options as they are. *)
Theorem build_dict_other_kinds_unchanged self pipeline_name :
  cluster_type self ∉ [kind_local; kind_yarn; kind_kube; kind_pbs] →
  build_dict self pipeline_name = cluster_configuration self.
Proof.
  intros Hkind. rewrite build_dict_unfold.
  rewrite forces_single_thread_not_local.
  - unfold merged_options, base_defaults.
    rewrite bool_decide_eq_false_2.
    + by rewrite (right_id_L ∅ (∪)).
    + intros Hin. apply Hkind. by right.
  - intros Hlocal. apply Hkind. rewrite Hlocal. by left.
Qed.

Lemma build_dict_other_kinds_unchanged_witness :
  build_dict {| cluster_type := kind_ssh;
                cluster_configuration := {[ "hosts" := PyList [] ]} |} "pipe"
  = {[ "hosts" := PyList [] ]}.
Proof.
  rewrite (build_dict_other_kinds_unchanged
             {| cluster_type := kind_ssh;
                cluster_configuration := {[ "hosts" := PyList [] ]} |}
             "pipe"); [reflexivity|].
  intros Hin.
  repeat (apply elem_of_cons in Hin as [Hin|Hin]; [discriminate|]).
  by apply elem_of_nil in Hin.
Defined.

(** X3: [build_dict] never drops a key the user supplied, and the only
    keys it can add are [name] and [threads_per_worker]. *)
Theorem build_dict_keys self pipeline_name :
  dom (cluster_configuration self) ⊆ dom (build_dict self pipeline_name)
  ∧ dom (build_dict self pipeline_name)
    ⊆ dom (cluster_configuration self)
      ∪ {[ key_name; key_threads_per_worker ]}.
Proof.
  rewrite build_dict_unfold.
  assert (Hm : dom (cluster_configuration self)
               ⊆ dom (merged_options self pipeline_name)
             ∧ dom (merged_options self pipeline_name)
               ⊆ dom (cluster_configuration self) ∪ {[ key_name ]}).
  { unfold merged_options, base_defaults. rewrite dom_union_L.
    case_bool_decide.
    - rewrite dom_singleton_L. set_solver.
    - rewrite dom_empty_L. set_solver. }
  destruct Hm as [Hm1 Hm2].
  destruct (forces_single_thread self).
  - rewrite dom_insert_L. set_solver.
  - set_solver.
Qed.

(** X4: [build_dict] is idempotent: an executor of the same kind
    configured with the mapping [build_dict] returned gets the same
    mapping back. *)
Theorem build_dict_idempotent self pipeline_name :
  build_dict {| cluster_type := cluster_type self;
                cluster_configuration := build_dict self pipeline_name |}
             pipeline_name
  = build_dict self pipeline_name.
Proof.
  set (cfg := build_dict self pipeline_name).
  rewrite (build_dict_unfold {| cluster_type := _ |}).
  unfold forces_single_thread, merged_options, base_defaults. simpl.
  assert (Hbase : cfg ∪ (if bool_decide (cluster_type self
                                         ∈ [kind_yarn; kind_kube; kind_pbs])
                         then {[ key_name := PyStr pipeline_name ]}
                         else ∅) = cfg).
  { case_bool_decide as Hkind; [|by rewrite (right_id_L ∅ (∪))].
    apply union_singleton_absorb. unfold cfg. rewrite build_dict_unfold.
    rewrite forces_single_thread_not_local.
    - unfold merged_options, base_defaults.
      rewrite (bool_decide_eq_true_2 _ Hkind).
      destruct (cluster_configuration self !! key_name) as [v|] eqn:Hname.
      + exists v. by apply lookup_union_Some_l.
      + eexists. rewrite lookup_union_r by done.
        apply lookup_singleton_eq.
    - intros Hlocal. rewrite Hlocal in Hkind.
      by apply kind_local_not_named. }
  rewrite Hbase.
  destruct (decide (cluster_type self = kind_local)) as [Hl|Hl];
    [|by rewrite (bool_decide_eq_false_2 _ Hl)].
  rewrite (bool_decide_eq_true_2 _ Hl). simpl.
  destruct (decide (is_Some (cfg !! key_address))) as [Ha|Ha];
    [by rewrite (bool_decide_eq_true_2 _ Ha)|].
  rewrite (bool_decide_eq_false_2 _ Ha). simpl. apply insert_id.
  unfold cfg in *. rewrite build_dict_unfold in *.
  unfold forces_single_thread in *.
  rewrite (bool_decide_eq_true_2 _ Hl) in *. simpl in *.
  destruct (decide (is_Some (cluster_configuration self !! key_address)))
    as [Hu|Hu].
  - exfalso. apply Ha. rewrite (bool_decide_eq_true_2 _ Hu). simpl.
    by rewrite merged_options_address.
  - rewrite (bool_decide_eq_false_2 _ Hu). simpl.
    by rewrite lookup_insert_eq.
Qed.

(** ** The executor factory *)

(** X5: a selector with exactly one entry gives the executor of that kind
    with that configuration, once the cross-process check has passed. *)
Theorem dask_executor_single_entry
    (check_cross_process_constraints : InitExecutorContext → result unit)
    (init_context : InitExecutorContext) (kind : string)
    (cfg : gmap string pyval) :
  check_cross_process_constraints init_context = Ok tt →
  executor_config init_context !! "cluster"
  = Some (PyDict {[ kind := PyDict cfg ]}) →
  dask_executor check_cross_process_constraints init_context
  = Ok {| cluster_type := kind; cluster_configuration := cfg |}.
Proof.
  intros Hcheck Hcluster. unfold dask_executor.
  rewrite Hcheck, Hcluster. simpl. by rewrite map_to_list_singleton.
Qed.

Lemma dask_executor_single_entry_witness :
  dask_executor constraints_met sample_init_context = Ok default_executor.
Proof.
  apply (dask_executor_single_entry constraints_met sample_init_context
           kind_local ∅); reflexivity.
Defined.

(** X6: the factory needs exactly one entry under [cluster]: without the
    [cluster] key it raises [KeyError], and with a mapping of no entry or
    of several the unpacking raises [ValueError]; no executor is built. *)
Theorem dask_executor_bad_selector
    (check_cross_process_constraints : InitExecutorContext → result unit)
    (init_context : InitExecutorContext) :
  check_cross_process_constraints init_context = Ok tt →
  (executor_config init_context !! "cluster" = None →
   dask_executor check_cross_process_constraints init_context
   = Raise (KeyError "cluster"))
  ∧ (∀ d, executor_config init_context !! "cluster" = Some (PyDict d) →
          size d ≠ 1 →
          ∃ msg, dask_executor check_cross_process_constraints init_context
                 = Raise (ValueError msg)).
Proof.
  intros Hcheck. unfold dask_executor. rewrite Hcheck. simpl. split.
  - by intros ->.
  - intros d -> Hsize. simpl.
    rewrite <- length_map_to_list in Hsize.
    destruct (map_to_list d) as [|[k v] [|kv l]]; simpl in *;
      [by eexists|done|by eexists].
Qed.

Lemma dask_executor_bad_selector_witness :
  ∃ msg,
    dask_executor constraints_met
      {| executor_config :=
           {[ "cluster" :=
                PyDict (<[ kind_local := PyDict ∅ ]>
                          {[ kind_yarn := PyDict ∅ ]}) ]};
         init_rest := PyNone |}
    = Raise (ValueError msg).
Proof.
  destruct (dask_executor_bad_selector constraints_met
              {| executor_config :=
                   {[ "cluster" :=
                        PyDict (<[ kind_local := PyDict ∅ ]>
                                  {[ kind_yarn := PyDict ∅ ]}) ]};
                 init_rest := PyNone |} eq_refl) as [_ H].
  apply (H (<[ kind_local := PyDict ∅ ]> {[ kind_yarn := PyDict ∅ ]})).
  - reflexivity.
  - vm_compute. discriminate.
Defined.

(** ** The order of the checks *)

(** X7: the checks at the top of [execute] are reported in their order,
    whatever the cluster kind and the plan: the executor's type first,
    then an empty storage section, then the instance, then the system
    storage; the first one that fails gives the exception (a check failure
    with that check's description), and nothing has been provisioned or
    submitted. *)
Theorem execute_first_failing_check
    (json_loads : string → option pyval)
    (as_completed : list Future → list Future)
    (future_result : Future → result (list pyobj))
    (self : DaskExecutor) (ctx : pipeline_context)
    (step_levels : step_levels_t) :
  (executor_is_DaskExecutor ctx = false →
   ∃ msg,
     run_execute json_loads as_completed future_result self ctx step_levels
     = ([], Raise (CheckError msg)))
  ∧ (executor_is_DaskExecutor ctx = true →
     ∀ d, run_config ctx !! key_storage = Some (PyDict d) →
       (d = ∅ →
        run_execute json_loads as_completed future_result self ctx
          step_levels
        = ([], Raise (CheckError
                 "Must specify storage to use Dask execution")))
       ∧ (d ≠ ∅ → instance_is_persistent ctx = false →
          run_execute json_loads as_completed future_result self ctx
            step_levels
          = ([], Raise (CheckError
                   "Dask execution requires a persistent DagsterInstance")))
       ∧ (d ≠ ∅ → instance_is_persistent ctx = true →
          system_storage_def_is_persistent ctx = false →
          run_execute json_loads as_completed future_result self ctx
            step_levels
          = ([], Raise (CheckError
                   "Cannot use in-memory storage with Dask, use filesystem, S3, or GCS")))).
Proof.
  unfold run_execute, execute. split.
  - intros ->. by eexists.
  - intros -> d Hst. rewrite bind_unfold. simpl. rewrite bind_unfold.
    unfold check_storage, dict_get. rewrite Hst. simpl.
    rewrite bind_unfold. simpl. unfold check_invariant.
    split; [|split].
    + intros ->. rewrite bool_decide_eq_false_2; [done|].
      intros Hk. by apply keys_nonempty in Hk.
    + intros Hd ->. rewrite bool_decide_eq_true_2 by by apply keys_nonempty.
      reflexivity.
    + intros Hd -> ->.
      rewrite bool_decide_eq_true_2 by by apply keys_nonempty.
      reflexivity.
Qed.

(** ** Failures of the submission loop *)

Lemma collect_nested_flat (futures_dict : gmap string Future)
    (inputs : list StepInput) acc t :
  for_in inputs
    (λ step_input dependencies,
       for_in (dependency_keys step_input)
         (λ key dependencies,
            f ← getitem futures_dict key; mret (dependencies ++ [f]))
         dependencies)
    acc t
  = for_in (concat (dependency_keys <$> inputs))
      (λ key dependencies,
         f ← getitem futures_dict key; mret (dependencies ++ [f]))
      acc t.
Proof.
  revert acc t. induction inputs as [|i inputs IH]; intros acc t; [done|].
  simpl. rewrite for_in_app, !bind_unfold.
  destruct (for_in (dependency_keys i) _ acc t) as [t' [acc'|e]]; [|done].
  apply IH.
Qed.

Lemma collect_dependencies_missing (futures_dict : gmap string Future)
    step ks1 k ks2 t :
  step_dependency_keys step = ks1 ++ k :: ks2 →
  (∀ k', k' ∈ ks1 → is_Some (futures_dict !! k')) →
  futures_dict !! k = None →
  collect_dependencies futures_dict step t = (t, Raise (KeyError k)).
Proof.
  intros Hkeys Hpresent Hmissing.
  unfold collect_dependencies. rewrite collect_nested_flat.
  fold (step_dependency_keys step). rewrite Hkeys, for_in_app.
  destruct (collect_keys_ok futures_dict ks1 [] t Hpresent)
    as (fs & Hrun & _).
  rewrite (bind_ok _ _ _ _ _ Hrun). cbn [for_in].
  rewrite !bind_unfold. unfold getitem. by rewrite Hmissing.
Qed.

(** X8: when a dependency key of a step is not in the submitted-futures
    map (the keys before it are), the lookup raises [KeyError] for that
    key; the step is not submitted and its resource tag is not even
    decoded. *)
Theorem submit_step_missing_dependency
    (json_loads : string → option pyval) (ctx : pipeline_context)
    (step : ExecutionStep) (s : submitted) (ks1 : list string)
    (k : string) (ks2 : list string) (t : list effect) :
  step_dependency_keys step = ks1 ++ k :: ks2 →
  (∀ k', k' ∈ ks1 → is_Some (execution_futures_dict s !! k')) →
  execution_futures_dict s !! k = None →
  submit_step json_loads ctx step s t = (t, Raise (KeyError k)).
Proof.
  intros Hkeys Hpresent Hmissing. unfold submit_step.
  by rewrite (bind_raise _ _ _ _ _
                (collect_dependencies_missing _ _ _ _ _ _
                   Hkeys Hpresent Hmissing)).
Qed.

Lemma submit_step_missing_dependency_witness :
  submit_step sample_json_loads sample_context step_orphan
    {| execution_futures := [step_future sample_context 0 step_A];
       execution_futures_dict :=
         {[ "A" := step_future sample_context 0 step_A ]} |} []
  = ([], Raise (KeyError "missing")).
Proof.
  apply (submit_step_missing_dependency sample_json_loads sample_context
           step_orphan _ ["A"] "missing" []).
  - reflexivity.
  - intros k' Hk'. apply list_elem_of_singleton in Hk' as ->.
    eexists. reflexivity.
  - reflexivity.
Defined.

Lemma submit_level_stops pre step post json_loads ctx s t t1 s1 t2 e :
  submit_level json_loads ctx pre s t = (t1, Ok s1) →
  submit_step json_loads ctx step s1 t1 = (t2, Raise e) →
  submit_level json_loads ctx (pre ++ step :: post) s t = (t2, Raise e).
Proof.
  unfold submit_level. intros Hpre Hstep.
  rewrite for_in_app, (bind_ok _ _ _ _ _ Hpre). cbn [for_in].
  by rewrite (bind_raise _ _ _ _ _ Hstep).
Qed.

Lemma execute_submission_raises json_loads as_completed future_result
    self ctx step_levels cls t1 e :
  preconditions_hold ctx = true →
  cluster_class_of (cluster_type self) = Some cls →
  submit_levels json_loads ctx step_levels no_submissions
    [EvCluster cls (build_dict self (pipeline_name ctx)); EvClientEnter]
  = (t1, Raise e) →
  run_execute json_loads as_completed future_result self ctx step_levels
  = (t1 ++ [EvClientExit], Raise e).
Proof.
  intros Hpre Hcls Hsub. unfold run_execute.
  rewrite (execute_reaches_client _ _ _ _ _ _ cls) by done.
  unfold with_client, client_block. simpl.
  by rewrite (bind_raise _ _ _ _ _ Hsub).
Qed.

Lemma emits_submit_levels_only json_loads ctx step_levels s :
  emits is_submit (submit_levels json_loads ctx step_levels s).
Proof.
  apply emits_for_in. intros level s'. apply emits_for_in.
  intros step s''. unfold submit_step.
  apply emits_bind.
  { apply emits_for_in. intros step_input deps.
    apply emits_for_in. intros k deps'. apply emits_bind.
    - apply emits_silent. intros t. unfold getitem.
      by destruct (execution_futures_dict s'' !! k).
    - intros f. by apply emits_silent. }
  intros deps. apply emits_bind; [by apply emits_silent|]. intros resources.
  apply emits_bind; [|intros f; by apply emits_silent].
  intros t. eexists [_]. split; [done|]. by constructor.
Qed.

Lemma emits_drain_only future_result futures :
  emits is_drain_effect (drain_futures future_result futures).
Proof.
  apply emits_for_in. intros f []. apply emits_bind.
  - intros t. exists [EvResult f]. split; [done|]. by constructor.
  - intros objs. apply emits_for_in. intros obj []. apply emits_bind.
    + apply emits_silent. intros t. by destruct obj.
    + intros ev. by apply emits_emit.
Qed.

(** X9: when the submission loop raises (a missing dependency key, a tag
    that does not decode), [execute] raises the same exception and never
    starts the drain: after the cluster's construction and the client's
    entry the trace holds only the submissions made before the failure,
    which stay submitted, and then the client's exit. *)
Theorem submission_failure_skips_drain
    (json_loads : string → option pyval)
    (as_completed : list Future → list Future)
    (future_result : Future → result (list pyobj))
    (self : DaskExecutor) (ctx : pipeline_context)
    (step_levels : step_levels_t) (cls : cluster_class)
    (t1 : list effect) (e : exn) :
  preconditions_hold ctx = true →
  cluster_class_of (cluster_type self) = Some cls →
  submit_levels json_loads ctx step_levels no_submissions
    [EvCluster cls (build_dict self (pipeline_name ctx)); EvClientEnter]
  = (t1, Raise e) →
  ∃ submissions,
    run_execute json_loads as_completed future_result self ctx step_levels
    = ([EvCluster cls (build_dict self (pipeline_name ctx)); EvClientEnter]
         ++ submissions ++ [EvClientExit],
       Raise e)
    ∧ Forall is_submit submissions.
Proof.
  intros Hpre Hcls Hsub.
  destruct (emits_submit_levels_only json_loads ctx step_levels
              no_submissions
              [EvCluster cls (build_dict self (pipeline_name ctx));
               EvClientEnter]) as (subs & Heq & Hsubs).
  rewrite Hsub in Heq. simpl in Heq. exists subs. split; [|done].
  rewrite (execute_submission_raises _ _ _ _ _ _ cls t1 e) by done.
  by rewrite Heq.
Qed.

Lemma submission_failure_skips_drain_witness :
  ∃ submissions,
    run_execute sample_json_loads sample_as_completed sample_future_result
      default_executor sample_context [[step_A]; [step_orphan]]
    = ([EvCluster LocalCluster (build_dict default_executor "pipe");
        EvClientEnter] ++ submissions ++ [EvClientExit],
       Raise (KeyError "missing"))
    ∧ Forall is_submit submissions.
Proof.
  refine (submission_failure_skips_drain sample_json_loads
            sample_as_completed sample_future_result default_executor
            sample_context [[step_A]; [step_orphan]] LocalCluster _
            (KeyError "missing") _ _ _).
  - reflexivity.
  - reflexivity.
  - vm_compute. reflexivity.
Defined.

Lemma deps_before_middle seen pre step post :
  deps_before seen (pre ++ step :: post) →
  ∀ k, k ∈ step_dependency_keys step → k ∈ seen ++ (key <$> pre).
Proof.
  revert seen. induction pre as [|a pre IH]; intros seen H k Hk.
  - destruct H as [H _]. simpl. rewrite (right_id_L [] (++)). by apply H.
  - destruct H as [_ H]. specialize (IH _ H k Hk).
    simpl. by rewrite <- (assoc_L (++)) in IH.
Qed.

Lemma n_submitted_all_submits subs :
  Forall is_submit subs → n_submitted subs = length subs.
Proof.
  unfold n_submitted. induction 1 as [|ev subs Hev _ IH]; [done|].
  rewrite filter_cons. destruct (decide (is_submit ev)); [|done].
  simpl. by rewrite IH.
Qed.

Lemma submit_step_bad_tag json_loads ctx step s t req :
  (∀ k, k ∈ step_dependency_keys step →
        is_Some (execution_futures_dict s !! k)) →
  tags step !! DASK_RESOURCE_REQUIREMENTS_KEY = Some req →
  json_loads req = None →
  submit_step json_loads ctx step s t = (t, Raise (JSONDecodeError req)).
Proof.
  intros Hdeps Htag Hbad.
  destruct (collect_dependencies_ok (execution_futures_dict s) step t Hdeps)
    as (deps & Hcol & _).
  unfold submit_step. rewrite (bind_ok _ _ _ _ _ Hcol), bind_unfold.
  unfold lift, get_dask_resource_requirements. by rewrite Htag, Hbad.
Qed.

(** X10: a resource tag that does not decode is found out during
    submission, not before: on a valid plan whose first undecodable tag is
    that of [step], [execute] has by then built the cluster, entered the
    client and submitted every step before [step]; it raises the decoding
    error without submitting [step] or any later step, waits on nothing,
    and leaves the client. *)
Theorem malformed_tag_raised_during_submission
    (json_loads : string → option pyval)
    (as_completed : list Future → list Future)
    (future_result : Future → result (list pyobj))
    (self : DaskExecutor) (ctx : pipeline_context)
    (step_levels : step_levels_t) (cls : cluster_class)
    (pre : list ExecutionStep) (step : ExecutionStep)
    (post : list ExecutionStep) (req : string) :
  preconditions_hold ctx = true →
  cluster_class_of (cluster_type self) = Some cls →
  valid_plan step_levels = true →
  concat step_levels = pre ++ step :: post →
  Forall (tags_decodable json_loads) pre →
  tags step !! DASK_RESOURCE_REQUIREMENTS_KEY = Some req →
  json_loads req = None →
  ∃ submissions,
    run_execute json_loads as_completed future_result self ctx step_levels
    = ([EvCluster cls (build_dict self (pipeline_name ctx)); EvClientEnter]
         ++ submissions ++ [EvClientExit],
       Raise (JSONDecodeError req))
    ∧ Forall is_submit submissions
    ∧ length submissions = length pre.
Proof.
  intros Hpre Hcls Hvalid Hsplit Hdec Htag Hbad.
  apply valid_plan_unfold in Hvalid as [Hord Hnd].
  apply levels_ordered_deps_before in Hord.
  unfold plan_keys in Hnd. rewrite Hsplit in Hnd, Hord.
  pose proof (deps_before_middle _ _ _ _ Hord) as Hstepdeps.
  apply deps_before_app_l in Hord.
  rewrite fmap_app in Hnd. apply NoDup_app in Hnd as (Hnd & _ & _).
  set (init := [EvCluster cls (build_dict self (pipeline_name ctx));
                EvClientEnter]).
  destruct (submit_level_inv json_loads ctx (n_submitted init) pre []
              init no_submissions)
    as (t1 & s1 & Hrun & Hinv); [apply submitted_inv_init|done|done|done|].
  simpl in Hinv.
  assert (Hstep : submit_step json_loads ctx step s1 t1
                  = (t1, Raise (JSONDecodeError req))).
  { apply submit_step_bad_tag; [|done|done].
    intros k Hk. eapply submitted_inv_is_Some; [exact Hinv|].
    by apply (Hstepdeps k). }
  assert (Hsub : submit_levels json_loads ctx step_levels no_submissions init
                 = (t1, Raise (JSONDecodeError req))).
  { rewrite submit_levels_flat, Hsplit.
    by apply (submit_level_stops pre step post _ _ _ _ t1 s1). }
  destruct (emits_submit_levels_only json_loads ctx step_levels
              no_submissions init) as (subs & Heq & Hsubs).
  rewrite Hsub in Heq. change (t1 = init ++ subs) in Heq. exists subs.
  split; [|split; [done|]].
  - rewrite (execute_submission_raises _ _ _ _ _ _ cls t1 _) by done.
    by rewrite Heq.
  - pose proof (inv_count _ _ _ _ _ Hinv) as Hcount.
    rewrite Heq, n_submitted_app, (n_submitted_all_submits subs Hsubs)
      in Hcount.
    change (n_submitted init) with 0 in Hcount. lia.
Qed.

Lemma malformed_tag_raised_during_submission_witness :
  ∃ submissions,
    run_execute sample_json_loads sample_as_completed sample_future_result
      default_executor sample_context [[step_A]; [step_bad_tag; step_B]]
    = ([EvCluster LocalCluster (build_dict default_executor "pipe");
        EvClientEnter] ++ submissions ++ [EvClientExit],
       Raise (JSONDecodeError "{GPU"))
    ∧ Forall is_submit submissions
    ∧ length submissions = 1.
Proof.
  refine (malformed_tag_raised_during_submission sample_json_loads
            sample_as_completed sample_future_result default_executor
            sample_context [[step_A]; [step_bad_tag; step_B]] LocalCluster
            [step_A] step_bad_tag [step_B] "{GPU" _ _ _ _ _ _ _).
  - reflexivity.
  - reflexivity.
  - vm_compute. reflexivity.
  - reflexivity.
  - repeat constructor; eexists; reflexivity.
  - reflexivity.
  - reflexivity.
Defined.

(** ** Runs that get through the submission loop *)

(** X11: on a plan without steps (no level, or only empty levels) a run
    that passes the checks builds the cluster, enters the client, submits
    nothing and, the cluster handing back no future, leaves the client and
    returns normally without an event. *)
Theorem execute_empty_plan
    (json_loads : string → option pyval)
    (as_completed : list Future → list Future)
    (future_result : Future → result (list pyobj))
    (self : DaskExecutor) (ctx : pipeline_context)
    (step_levels : step_levels_t) (cls : cluster_class) :
  preconditions_hold ctx = true →
  cluster_class_of (cluster_type self) = Some cls →
  concat step_levels = [] →
  as_completed [] = [] →
  run_execute json_loads as_completed future_result self ctx step_levels
  = ([EvCluster cls (build_dict self (pipeline_name ctx));
      EvClientEnter; EvClientExit],
     Ok tt).
Proof.
  intros Hpre Hcls Hempty Hnone. unfold run_execute.
  rewrite (execute_reaches_client _ _ _ _ _ _ cls) by done.
  unfold with_client, client_block. simpl.
  rewrite bind_unfold, submit_levels_flat, Hempty. simpl.
  by rewrite Hnone.
Qed.

Lemma execute_empty_plan_witness :
  run_execute sample_json_loads sample_as_completed sample_future_result
    default_executor sample_context [[]; []]
  = ([EvCluster LocalCluster (build_dict default_executor "pipe");
      EvClientEnter; EvClientExit],
     Ok tt).
Proof.
  apply (execute_empty_plan sample_json_loads sample_as_completed
           sample_future_result default_executor sample_context [[]; []]
           LocalCluster); reflexivity.
Defined.

Lemma append_inj_r (p a b : string) : p +:+ a = p +:+ b → a = b.
Proof.
  induction p as [|c p IH]; simpl; [done|].
  intros [= H]. by apply IH.
Qed.

Lemma dask_task_name_inj pipeline_name :
  Inj (=) (=) (dask_task_name pipeline_name).
Proof.
  intros a b H. unfold dask_task_name in H.
  apply append_inj_r in H. by apply append_inj_r in H.
Qed.

Lemma fut_key_step_futures ctx n0 steps :
  fut_key <$> imap (λ i step, step_future ctx (n0 + i) step) steps
  = dask_task_name (pipeline_name ctx) <$> (key <$> steps).
Proof.
  revert n0. induction steps as [|step steps IH]; intros n0; [done|].
  rewrite imap_cons, !fmap_cons. f_equal.
  rewrite <- (IH (S n0)). f_equal. apply imap_ext.
  intros i x _. simpl. f_equal. lia.
Qed.

(** X12: after a submission pass over a valid plan the task keys of the
    futures are, in submission order, the pipeline name joined by a dot
    with each step key of the plan, and they are pairwise distinct: no two
    steps of a run are submitted under the same task key. *)
Theorem submitted_task_keys_distinct
    (json_loads : string → option pyval) (ctx : pipeline_context)
    (levels : step_levels_t) (t0 t : list effect) (s : submitted) :
  valid_plan levels = true →
  submit_levels json_loads ctx levels no_submissions t0 = (t, Ok s) →
  fut_key <$> execution_futures s
  = dask_task_name (pipeline_name ctx) <$> plan_keys levels
  ∧ NoDup (fut_key <$> execution_futures s).
Proof.
  intros Hvalid Hrun.
  assert (Hdec : Forall (tags_decodable json_loads) (concat levels)).
  { rewrite submit_levels_flat in Hrun.
    by eapply submit_level_ok_decodable. }
  apply valid_plan_unfold in Hvalid as [Hord Hnd].
  apply levels_ordered_deps_before in Hord.
  destruct (submit_level_inv json_loads ctx (n_submitted t0)
              (concat levels) [] t0 no_submissions)
    as (t' & s' & Hrun' & Hinv); [apply submitted_inv_init|done|done|done|].
  rewrite submit_levels_flat, Hrun' in Hrun. injection Hrun as <- <-.
  simpl in Hinv.
  assert (Hkeys : fut_key <$> execution_futures s'
                  = dask_task_name (pipeline_name ctx) <$> plan_keys levels).
  { rewrite (inv_futures _ _ _ _ _ Hinv). apply fut_key_step_futures. }
  split; [exact Hkeys|]. rewrite Hkeys.
  apply NoDup_fmap_2; [apply dask_task_name_inj|done].
Qed.

Lemma submitted_task_keys_distinct_witness :
  ∃ t s,
    submit_levels sample_json_loads sample_context diamond_plan
      no_submissions [] = (t, Ok s)
    ∧ fut_key <$> execution_futures s = ["pipe.A"; "pipe.B"; "pipe.C"].
Proof.
  eexists _, _. split; [vm_compute; reflexivity|].
  refine (eq_trans (proj1 (submitted_task_keys_distinct sample_json_loads
                             sample_context diamond_plan [] _ _ _ _)) _).
  - vm_compute. reflexivity.
  - vm_compute. reflexivity.
  - reflexivity.
Defined.

(** X13: every submission of a run precedes every wait: between the
    client's entry and its exit the trace is a block of submissions
    followed by a block of waits and yields, so all levels are submitted
    before the first future is waited on. *)
Theorem submissions_precede_waits
    (json_loads : string → option pyval)
    (as_completed : list Future → list Future)
    (future_result : Future → result (list pyobj))
    (self : DaskExecutor) (ctx : pipeline_context)
    (step_levels : step_levels_t) (cls : cluster_class) :
  preconditions_hold ctx = true →
  cluster_class_of (cluster_type self) = Some cls →
  ∃ submissions drained outcome,
    run_execute json_loads as_completed future_result self ctx step_levels
    = ([EvCluster cls (build_dict self (pipeline_name ctx)); EvClientEnter]
         ++ submissions ++ drained ++ [EvClientExit],
       outcome)
    ∧ Forall is_submit submissions
    ∧ Forall is_drain_effect drained.
Proof.
  intros Hpre Hcls.
  set (init := [EvCluster cls (build_dict self (pipeline_name ctx));
                EvClientEnter]).
  destruct (emits_submit_levels_only json_loads ctx step_levels
              no_submissions init) as (subs & Hsubs & HPs).
  unfold run_execute.
  rewrite (execute_reaches_client _ _ _ _ _ _ cls) by done.
  unfold with_client, client_block. simpl. fold init.
  rewrite bind_unfold.
  destruct (submit_levels json_loads ctx step_levels no_submissions init)
    as [t1 [s|e]]; simpl in Hsubs; subst t1.
  - destruct (emits_drain_only future_result
                (as_completed (execution_futures s)) (init ++ subs))
      as (drained & Hdr & HPd).
    destruct (drain_futures _ _ _) as [t2 r]. simpl in Hdr. subst t2.
    exists subs, drained, r. split; [|done].
    simpl. by rewrite <- (assoc_L (++)).
  - exists subs, [], (Raise e). split; [|split; [done|constructor]].
    done.
Qed.

Lemma submissions_precede_waits_witness :
  ∃ submissions drained outcome,
    run_execute sample_json_loads sample_as_completed sample_future_result
      default_executor sample_context diamond_plan
    = ([EvCluster LocalCluster (build_dict default_executor "pipe");
        EvClientEnter] ++ submissions ++ drained ++ [EvClientExit],
       outcome)
    ∧ Forall is_submit submissions
    ∧ Forall is_drain_effect drained.
Proof.
  apply (submissions_precede_waits sample_json_loads sample_as_completed
           sample_future_result default_executor sample_context
           diamond_plan LocalCluster); reflexivity.
Defined.

(** ** The drain *)

Lemma yield_events_ok evs t :
  for_in (ObjEvent <$> evs)
    (λ step_event (_ : unit),
       ev ← check_inst_DagsterEvent step_event; emit (EvYield ev))
    tt t
  = (t ++ (EvYield <$> evs), Ok tt).
Proof.
  revert t. induction evs as [|ev evs IH]; intros t.
  - simpl. by rewrite (right_id_L [] (++)).
  - simpl. rewrite bind_unfold. simpl. unfold emit at 1. simpl.
    rewrite IH. by rewrite <- (assoc_L (++)).
Qed.

Lemma yield_events_rejected good v rest t :
  for_in ((ObjEvent <$> good) ++ ObjOther v :: rest)
    (λ step_event (_ : unit),
       ev ← check_inst_DagsterEvent step_event; emit (EvYield ev))
    tt t
  = (t ++ (EvYield <$> good),
     Raise (CheckError "Object is not a DagsterEvent")).
Proof.
  rewrite for_in_app, (bind_ok _ _ _ _ _ (yield_events_ok good t)).
  reflexivity.
Qed.

Lemma drain_all_ok future_result events_of futures t :
  (∀ f, f ∈ futures → future_result f = Ok (ObjEvent <$> events_of f)) →
  drain_futures future_result futures t
  = (t ++ drain_trace events_of futures, Ok tt).
Proof.
  unfold drain_futures, drain_trace. revert t.
  induction futures as [|f futures IH]; intros t Hok.
  - simpl. by rewrite (right_id_L [] (++)).
  - cbn [for_in]. rewrite bind_unfold, bind_unfold. unfold call_result.
    rewrite (Hok f) by by left. rewrite yield_events_ok.
    rewrite IH by (intros f' Hf'; apply Hok; by right).
    simpl. by rewrite <- !(assoc_L (++)).
Qed.

Lemma yielded_app t1 t2 : yielded (t1 ++ t2) = yielded t1 ++ yielded t2.
Proof. unfold yielded. apply omap_app. Qed.

Lemma yielded_submits subs : Forall is_submit subs → yielded subs = [].
Proof.
  unfold yielded. induction 1 as [|ev subs Hev _ IH]; [done|].
  destruct ev; simpl in *; done.
Qed.

Lemma yielded_yields evs : yielded (EvYield <$> evs) = evs.
Proof.
  unfold yielded. induction evs as [|ev evs IH]; [done|].
  simpl. f_equal. exact IH.
Qed.

Lemma yielded_drain_trace events_of futures :
  yielded (drain_trace events_of futures) = concat (events_of <$> futures).
Proof.
  unfold drain_trace. induction futures as [|f futures IH]; [done|].
  rewrite !fmap_cons. cbn [concat].
  rewrite (yielded_app (EvResult f :: _)), IH. f_equal.
  change (yielded ([EvResult f] ++ (EvYield <$> events_of f))
          = events_of f).
  by rewrite yielded_app, yielded_yields.
Qed.

(** X14: when every task succeeds, a run over a valid plan whose tags
    decode returns normally; it submits one task per step, then waits on
    the futures in the order the cluster completes them, and the events it
    yields are exactly the events of those futures, each future's events
    kept together and in their own order, future after future in
    completion order. *)
Theorem successful_run_yields_in_completion_order
    (json_loads : string → option pyval)
    (as_completed : list Future → list Future)
    (future_result : Future → result (list pyobj))
    (events_of : Future → list DagsterEvent)
    (self : DaskExecutor) (ctx : pipeline_context)
    (step_levels : step_levels_t) (cls : cluster_class) :
  preconditions_hold ctx = true →
  cluster_class_of (cluster_type self) = Some cls →
  valid_plan step_levels = true →
  Forall (tags_decodable json_loads) (concat step_levels) →
  (∀ f, future_result f = Ok (ObjEvent <$> events_of f)) →
  ∃ submissions completed,
    run_execute json_loads as_completed future_result self ctx step_levels
    = ([EvCluster cls (build_dict self (pipeline_name ctx)); EvClientEnter]
         ++ submissions ++ drain_trace events_of completed
         ++ [EvClientExit],
       Ok tt)
    ∧ Forall is_submit submissions
    ∧ length submissions = length (concat step_levels)
    ∧ completed
      = as_completed
          (imap (λ i step, step_future ctx i step) (concat step_levels))
    ∧ yielded
        (run_execute json_loads as_completed future_result self ctx
           step_levels).1
      = concat (events_of <$> completed).
Proof.
  intros Hpre Hcls Hvalid Hdec Hok.
  apply valid_plan_unfold in Hvalid as [Hord Hnd].
  apply levels_ordered_deps_before in Hord.
  set (init := [EvCluster cls (build_dict self (pipeline_name ctx));
                EvClientEnter]).
  destruct (submit_level_inv json_loads ctx (n_submitted init)
              (concat step_levels) [] init no_submissions)
    as (t1 & s1 & Hrun & Hinv); [apply submitted_inv_init|done|done|done|].
  simpl in Hinv. rewrite <- submit_levels_flat in Hrun.
  destruct (emits_submit_levels_only json_loads ctx step_levels
              no_submissions init) as (subs & Heq & Hsubs).
  rewrite Hrun in Heq. change (t1 = init ++ subs) in Heq.
  assert (Hlen : length subs = length (concat step_levels)).
  { pose proof (inv_count _ _ _ _ _ Hinv) as Hcount.
    rewrite Heq, n_submitted_app, (n_submitted_all_submits subs Hsubs)
      in Hcount.
    change (n_submitted init) with 0 in Hcount. lia. }
  assert (Hfuts : execution_futures s1
                  = imap (λ i step, step_future ctx i step)
                      (concat step_levels)).
  { rewrite (inv_futures _ _ _ _ _ Hinv). apply imap_ext.
    intros i x _. by change (n_submitted init) with 0. }
  assert (Hexec :
    run_execute json_loads as_completed future_result self ctx step_levels
    = (init ++ subs
         ++ drain_trace events_of (as_completed (execution_futures s1))
         ++ [EvClientExit],
       Ok tt)).
  { unfold run_execute.
    rewrite (execute_reaches_client _ _ _ _ _ _ cls) by done.
    unfold with_client, client_block. simpl. fold init.
    rewrite (bind_ok _ _ _ _ _ Hrun).
    rewrite (drain_all_ok future_result events_of) by (intros f _; apply Hok).
    rewrite Heq. by rewrite <- !(assoc_L (++)). }
  exists subs, (as_completed (execution_futures s1)).
  split; [exact Hexec|]. split; [done|]. split; [done|].
  split; [by rewrite Hfuts|].
  rewrite Hexec. simpl. rewrite !yielded_app.
  rewrite (yielded_submits subs Hsubs), yielded_drain_trace.
  simpl. by rewrite (right_id_L [] (++)).
Qed.

Lemma successful_run_yields_in_completion_order_witness :
  yielded
    (run_execute sample_json_loads sample_as_completed all_succeed
       default_executor sample_context diamond_plan).1
  = [success_event (step_future sample_context 2 step_C);
     success_event (step_future sample_context 1 step_B);
     success_event (step_future sample_context 0 step_A)].
Proof.
  destruct (successful_run_yields_in_completion_order sample_json_loads
              sample_as_completed all_succeed (λ f, [success_event f])
              default_executor sample_context diamond_plan LocalCluster)
    as (subs & completed & _ & _ & _ & -> & ->).
  - reflexivity.
  - reflexivity.
  - vm_compute. reflexivity.
  - repeat constructor; eexists; reflexivity.
  - reflexivity.
  - reflexivity.
Defined.

(** X15: an element of a future's result that is not a [DagsterEvent]
    stops the run with a check failure at that element: the events before
    it in the same result have been yielded, the rest of the result and the
    futures after it are dropped. *)
Theorem drain_rejects_non_event
    (future_result : Future → result (list pyobj))
    (pre : list Future) (f : Future) (post : list Future)
    (good : list DagsterEvent) (v : pyval) (rest : list pyobj)
    (t t' : list effect) :
  drain_futures future_result pre t = (t', Ok tt) →
  future_result f = Ok ((ObjEvent <$> good) ++ ObjOther v :: rest) →
  ∃ msg,
    drain_futures future_result (pre ++ f :: post) t
    = (t' ++ EvResult f :: (EvYield <$> good), Raise (CheckError msg)).
Proof.
  intros Hpre Hf. unfold drain_futures in *.
  rewrite for_in_app, (bind_ok _ _ _ _ _ Hpre). cbn [for_in].
  rewrite bind_unfold, bind_unfold. unfold call_result. rewrite Hf.
  rewrite yield_events_rejected. eexists.
  by rewrite <- (assoc_L (++)).
Qed.

Lemma drain_rejects_non_event_witness :
  ∃ msg,
    drain_futures
      (λ f, Ok [ObjEvent (success_event f); ObjOther PyNone;
                ObjEvent (success_event f)])
      [step_future sample_context 0 step_A;
       step_future sample_context 1 step_B] []
    = ([EvResult (step_future sample_context 0 step_A);
        EvYield (success_event (step_future sample_context 0 step_A))],
       Raise (CheckError msg)).
Proof.
  apply (drain_rejects_non_event
           (λ f, Ok [ObjEvent (success_event f); ObjOther PyNone;
                     ObjEvent (success_event f)])
           [] (step_future sample_context 0 step_A)
           [step_future sample_context 1 step_B]
           [success_event (step_future sample_context 0 step_A)] PyNone
           [ObjEvent (success_event (step_future sample_context 0 step_A))]
           [] []); reflexivity.
Defined.

(** ** The calls of the submission loop *)

Lemma submit_step_call json_loads ctx step s t deps resources :
  collect_dependencies (execution_futures_dict s) step t = (t, Ok deps) →
  get_dask_resource_requirements json_loads (tags step) = Ok resources →
  submit_step json_loads ctx step s t
  = (t ++ [EvSubmit (step_call ctx step deps resources)],
     Ok {| execution_futures :=
             execution_futures s
             ++ [{| fut_key := dask_task_name (pipeline_name ctx) (key step);
                    fut_id := n_submitted t |}];
           execution_futures_dict :=
             <[ key step :=
                  {| fut_key := dask_task_name (pipeline_name ctx) (key step);
                     fut_id := n_submitted t |} ]>
               (execution_futures_dict s) |}).
Proof.
  intros Hcol Hres. unfold submit_step.
  rewrite (bind_ok _ _ _ _ _ Hcol), bind_unfold. unfold lift.
  by rewrite Hres.
Qed.

Lemma submit_level_calls json_loads ctx n0 all todo : ∀ done t s,
  all = done ++ todo →
  submitted_inv ctx n0 done t s →
  NoDup (key <$> all) →
  deps_before (key <$> done) todo →
  Forall (tags_decodable json_loads) todo →
  ∃ calls t' s',
    submit_level json_loads ctx todo s t = (t', Ok s')
    ∧ t' = t ++ (EvSubmit <$> calls)
    ∧ submitted_inv ctx n0 all t' s'
    ∧ Forall2
        (λ step call,
           ∃ resources,
             get_dask_resource_requirements json_loads (tags step)
             = Ok resources
             ∧ call = step_call ctx step (sc_dependencies call) resources
             ∧ Forall2
                 (λ k f, ∃ i dep, all !! i = Some dep ∧ key dep = k
                                  ∧ f = step_future ctx (n0 + i) dep)
                 (step_dependency_keys step) (sc_dependencies call))
        todo calls.
Proof.
  unfold submit_level.
  induction todo as [|step todo IH]; intros done t s Hall Hinv Hnd Hdeps Hdec.
  - exists [], t, s. rewrite (right_id_L [] (++)) in Hall. subst all.
    split; [done|]. split; [simpl; by rewrite (right_id_L [] (++))|].
    split; [done|constructor].
  - destruct Hdeps as [Hstep Hdeps].
    apply Forall_cons in Hdec as [[resources Hres] Hdec].
    assert (Hfresh : key step ∉ key <$> done).
    { rewrite Hall, fmap_app in Hnd.
      apply NoDup_app in Hnd as (_ & Hnd & _).
      intros Hin. apply (Hnd _ Hin). simpl. by left. }
    destruct (collect_dependencies_ok (execution_futures_dict s) step t)
      as (deps & Hcol & Hfs).
    { intros k Hk. eapply submitted_inv_is_Some; eauto. }
    pose proof (submit_step_call json_loads ctx step s t deps resources
                  Hcol Hres) as Hcall.
    destruct (submit_step_inv json_loads ctx n0 done t s step Hinv Hfresh
                Hstep (ex_intro _ resources Hres))
      as (call & s' & Hrun & Hinv' & _).
    rewrite Hcall in Hrun. injection Hrun as Ht Hs.
    rewrite <- Ht, <- Hs in Hinv'. clear call s' Ht Hs.
    assert (Hall' : all = (done ++ [step]) ++ todo)
      by by rewrite <- (assoc_L (++)).
    assert (Hdeps' : deps_before (key <$> (done ++ [step])) todo)
      by by rewrite fmap_app.
    destruct (IH _ _ _ Hall' Hinv' Hnd Hdeps' Hdec)
      as (calls & t'' & s'' & Hrun' & Ht'' & Hinv'' & Hcalls).
    exists (step_call ctx step deps resources :: calls), t'', s''.
    split; [|split; [|split; [done|]]].
    + cbn [for_in]. by rewrite (bind_ok _ _ _ _ _ Hcall).
    + rewrite Ht''. simpl. by rewrite <- (assoc_L (++)).
    + constructor; [|done].
      exists resources. split; [done|]. split; [done|]. simpl.
      apply Forall2_same_length_lookup in Hfs as [Hlen Hfs].
      apply Forall2_same_length_lookup. split; [done|].
      intros i k f Hk Hf. specialize (Hfs i k f Hk Hf).
      apply (inv_dict _ _ _ _ _ Hinv) in Hfs as (j & dep & Hj & Hkey & ->).
      exists j, dep. split; [|done].
      rewrite Hall. apply lookup_app_Some. by left.
Qed.

(** X16: a submission pass that ends normally over a valid plan writes
    exactly one [client.submit] per step, in plan order, and nothing else;
    the call for a step carries the step's task key and variables, the
    decoded value of its resource tag as [resources], and as dependencies
    exactly the futures that the submitted-futures map holds for the
    step's dependency keys, one for each key the loop visits, whatever the
    order of the visit. *)
Theorem submission_calls_in_plan_order
    (json_loads : string → option pyval) (ctx : pipeline_context)
    (levels : step_levels_t) (t0 t : list effect) (s : submitted) :
  valid_plan levels = true →
  submit_levels json_loads ctx levels no_submissions t0 = (t, Ok s) →
  ∃ calls,
    t = t0 ++ (EvSubmit <$> calls)
    ∧ Forall2
        (λ step call,
           ∃ resources,
             get_dask_resource_requirements json_loads (tags step)
             = Ok resources
             ∧ call = step_call ctx step (sc_dependencies call) resources
             ∧ length (sc_dependencies call)
               = length (step_dependency_keys step)
             ∧ ∀ f, f ∈ sc_dependencies call
                    ↔ ∃ k, k ∈ step_dependency_keys step
                           ∧ execution_futures_dict s !! k = Some f)
        (concat levels) calls.
Proof.
  intros Hvalid Hrun.
  assert (Hdec : Forall (tags_decodable json_loads) (concat levels)).
  { rewrite submit_levels_flat in Hrun.
    by eapply submit_level_ok_decodable. }
  apply valid_plan_unfold in Hvalid as [Hord Hnd].
  apply levels_ordered_deps_before in Hord.
  destruct (submit_level_calls json_loads ctx (n_submitted t0)
              (concat levels) (concat levels) [] t0 no_submissions)
    as (calls & t' & s' & Hrun' & Ht' & Hinv & Hcalls);
    [done|apply submitted_inv_init|done|done|done|].
  rewrite submit_levels_flat, Hrun' in Hrun. injection Hrun as <- <-.
  exists calls. split; [done|].
  eapply Forall2_impl; [exact Hcalls|].
  intros step call (resources & Hres & Hcall & Hdeps).
  exists resources. split; [done|]. split; [done|].
  assert (Hmap : Forall2 (λ k f, execution_futures_dict s' !! k = Some f)
                   (step_dependency_keys step) (sc_dependencies call)).
  { eapply Forall2_impl; [exact Hdeps|].
    intros k f (i & dep & Hi & Hkey & ->).
    apply (inv_dict _ _ _ _ _ Hinv). by exists i, dep. }
  split; [symmetry; by eapply Forall2_length|].
  intros f. split.
  - intros Hf. apply list_elem_of_lookup in Hf as [i Hi].
    destruct (Forall2_lookup_r _ _ _ _ _ Hmap Hi) as (k & Hk & Hkf).
    exists k. split; [|done]. apply list_elem_of_lookup. by exists i.
  - intros (k & Hk & Hkf). apply list_elem_of_lookup in Hk as [i Hi].
    destruct (Forall2_lookup_l _ _ _ _ _ Hmap Hi) as (f' & Hf' & Hkf').
    rewrite Hkf in Hkf'. injection Hkf' as <-.
    apply list_elem_of_lookup. by exists i.
Qed.

Lemma submission_calls_in_plan_order_witness :
  ∃ t s calls,
    submit_levels sample_json_loads sample_context diamond_plan
      no_submissions [] = (t, Ok s)
    ∧ t = EvSubmit <$> calls
    ∧ length calls = 3.
Proof.
  eexists _, _.
  destruct (submission_calls_in_plan_order sample_json_loads sample_context
              diamond_plan [] _ _ eq_refl eq_refl)
    as (calls & Ht & Hcalls).
  exists calls. split; [reflexivity|]. split; [exact Ht|].
  apply Forall2_length in Hcalls. rewrite <- Hcalls. reflexivity.
Defined.

(** ** Downloads over FTP *)

Lemma write_and_count_all blocks acc :
  foldl Ftp.write_and_count acc blocks
  = {| Ftp.dest := Ftp.dest acc ++ concat blocks;
       Ftp.nb_written_bytes :=
         Ftp.nb_written_bytes acc + length (concat blocks) |}.
Proof.
  revert acc. induction blocks as [|b blocks IH]; intros acc.
  - destruct acc as [d n]. simpl.
    by rewrite (right_id_L [] (++)), Nat.add_0_r.
  - simpl. rewrite IH. unfold Ftp.write_and_count. simpl.
    rewrite <- (assoc_L (++)), length_app. f_equal. lia.
Qed.

(** X17: when the server ends the transfer with a reply that starts with
    [226 ], [download] returns the number of bytes the server sent, and
    the destination holds what it held before followed by those bytes, in
    the order the blocks arrived. *)
Theorem ftp_download_complete
    (server : string → list (list Byte.byte) * Ftp.outcome string)
    (source : string) (destination : Ftp.BinaryIO)
    (blocks : list (list Byte.byte)) (return_code : string) :
  server ("RETR " +:+ source) = (blocks, Ftp.Returned return_code) →
  String.prefix "226 " return_code = true →
  Ftp.download server source destination
  = (destination ++ concat blocks,
     Ftp.Returned (length (concat blocks))).
Proof.
  intros Hserver Hcode. unfold Ftp.download, Ftp.retrbinary.
  rewrite Hserver, Hcode, write_and_count_all. reflexivity.
Qed.

Lemma ftp_download_complete_witness :
  Ftp.download
    (λ _, ([[Byte.x74; Byte.x65]; [Byte.x73; Byte.x74]],
           Ftp.Returned "226 Transfer complete"))
    "test.txt" []
  = ([Byte.x74; Byte.x65; Byte.x73; Byte.x74], Ftp.Returned 4).
Proof.
  apply (ftp_download_complete
           (λ _, ([[Byte.x74; Byte.x65]; [Byte.x73; Byte.x74]],
                  Ftp.Returned "226 Transfer complete"))
           "test.txt" [] [[Byte.x74; Byte.x65]; [Byte.x73; Byte.x74]]
           "226 Transfer complete"); reflexivity.
Defined.

(** X18: a download that fails leaves the blocks it received in the
    destination: when the final reply does not start with [226 ] the call
    raises [RuntimeError] naming the source and the reply, and when the
    transfer itself raises the exception passes through; in both cases
    every block sent before has already been written. *)
Theorem ftp_download_failure_keeps_data
    (server : string → list (list Byte.byte) * Ftp.outcome string)
    (source : string) (destination : Ftp.BinaryIO)
    (blocks : list (list Byte.byte)) (reply : Ftp.outcome string) :
  server ("RETR " +:+ source) = (blocks, reply) →
  (∀ return_code,
     reply = Ftp.Returned return_code →
     String.prefix "226 " return_code = false →
     Ftp.download server source destination
     = (destination ++ concat blocks,
        Ftp.Raised (Ftp.RuntimeError
                      ("Binary transfer of " +:+ source
                         +:+ " failed. Return code: " +:+ return_code))))
  ∧ (∀ e,
       reply = Ftp.Raised e →
       Ftp.download server source destination
       = (destination ++ concat blocks, Ftp.Raised e)).
Proof.
  intros Hserver. unfold Ftp.download, Ftp.retrbinary.
  rewrite Hserver, write_and_count_all. split.
  - intros return_code -> ->. reflexivity.
  - intros e ->. reflexivity.
Qed.

Lemma ftp_download_failure_keeps_data_witness :
  Ftp.download
    (λ _, ([[Byte.x74; Byte.x65]], Ftp.Returned "250 OK")) "test.txt" []
  = ([Byte.x74; Byte.x65],
     Ftp.Raised (Ftp.RuntimeError
                   "Binary transfer of test.txt failed. Return code: 250 OK")).
Proof.
  refine (proj1 (ftp_download_failure_keeps_data
                   (λ _, ([[Byte.x74; Byte.x65]], Ftp.Returned "250 OK"))
                   "test.txt" [] [[Byte.x74; Byte.x65]]
                   (Ftp.Returned "250 OK") eq_refl)
            "250 OK" eq_refl eq_refl).
Defined.
